(** * sacredshifteraura: a thin HTTP wrapper around a causal language model

    The repository consists of three Python modules:

    - [model_loader.py]: [MODEL_NAME] and [load_model];
    - [main.py]: a FastAPI application with the route [POST /generate];
    - [handler.py]: a second FastAPI application with the route [POST /run].

    The development below is a shallow embedding of these modules.  Python
    values are dynamically typed ([pyval]); objects of the transformers
    library live on a heap and are reached through references, so that
    aliasing and in-place mutation ([model.eval()]) are visible; module
    level names live in a namespace ([globals]); every function runs in a
    state-and-exception monad [M].  The transformers library and the lax
    conversions of pydantic are external: they are the interfaces
    [Transformers] and [Pydantic], and every theorem quantifies over them.
    A ghost [trace] records the calls that cross the boundary of the
    repository, the way a capturing stub would. *)

From Stdlib Require Import ZArith PrimFloat.
From stdpp Require Import gmap strings list fin_maps.

Local Open Scope string_scope.
Local Open Scope Z_scope.
Local Open Scope list_scope.
Local Set Warnings "-register-all,-inexact-float".

(** ** Python values and exceptions *)

(** Heap addresses. *)
Abbreviation addr := nat (only parsing).

(** The values the three modules handle.  [VList] stands for every
    subscriptable sequence that is not a tuple (lists, and the tensors of
    token ids returned by the library); [VDict] for mappings with string
    keys (JSON objects, the tokenizer's [BatchEncoding], returned dicts);
    [VRef] is a reference to a library object on the heap and [VMethod]
    a method bound to such an object (the value of [obj.name]). *)
Inductive pyval : Type :=
| VNone
| VBool (b : bool)
| VInt (z : Z)
| VFloat (f : float)
| VStr (s : string)
| VTuple (l : list pyval)
| VList (l : list pyval)
| VDict (d : gmap string pyval)
| VRef (a : addr)
| VMethod (self : addr) (name : string).

Inductive exn : Type :=
| AttributeError (ty attr : string)
| TypeError (msg : string)
| NameError (name : string)
| IndexError (msg : string)
| KeyError (key : string)
| ValueError (msg : string)
| OSError (msg : string)
| RuntimeError (msg : string).

Inductive result (A : Type) : Type :=
| Ok (a : A)
| Raise (e : exn).
Arguments Ok {A} a.
Arguments Raise {A} e.

Definition type_name (v : pyval) : string :=
  match v with
  | VNone => "NoneType"
  | VBool _ => "bool"
  | VInt _ => "int"
  | VFloat _ => "float"
  | VStr _ => "str"
  | VTuple _ => "tuple"
  | VList _ => "list"
  | VDict _ => "dict"
  | VRef _ => "object"
  | VMethod _ _ => "method"
  end.

Definition str_eq (name expected : string) : bool :=
  Stdlib.Strings.String.eqb name expected.

(** ** The external library *)

(** A loaded network: its parameters and the [training] flag that
    [torch.nn.Module.eval] clears. *)
Record model_state (W : Type) : Type := ModelState {
  params : W;
  training : bool
}.
Arguments ModelState {W} params training.
Arguments params {W} m.
Arguments training {W} m.

(** What the program uses of transformers.  The two [from_pretrained]
    constructors may fail (unknown name, network, memory); every method
    receives the state of its receiver and returns the state it leaves
    behind together with its outcome, so that nothing is assumed about
    what a call does to the object it is called on. *)
Class Transformers : Type := {
  weights : Type;
  vocab : Type;
  AutoTokenizer_from_pretrained :
    list pyval -> gmap string pyval -> result vocab;
  AutoModelForCausalLM_from_pretrained :
    list pyval -> gmap string pyval -> result (model_state weights);
  tokenizer_call :
    vocab -> list pyval -> gmap string pyval -> result pyval * vocab;
  tokenizer_decode :
    vocab -> list pyval -> gmap string pyval -> result pyval * vocab;
  model_call :
    model_state weights -> list pyval -> gmap string pyval ->
    result pyval * model_state weights;
  model_generate :
    model_state weights -> list pyval -> gmap string pyval ->
    result pyval * model_state weights
}.

(** The conversions pydantic applies to a supplied value that is not
    already of the declared type (they differ between releases). *)
Class Pydantic : Type := {
  lax_str : pyval -> option string;
  lax_int : pyval -> option Z;
  lax_float : pyval -> option float
}.

(** ** Heap, namespace, trace *)

Inductive obj `{Transformers} : Type :=
| OModel (m : model_state weights)
| OTokenizer (t : vocab).

Inductive event : Type :=
| EnterFunction (qualname : string)
| LibCall (qualname : string) (self : option addr)
    (args : list pyval) (kwargs : gmap string pyval).

Record world `{Transformers} : Type := World {
  globals : gmap string pyval;
  heap : list obj;
  trace : list event
}.

Definition class_name `{Transformers} (o : obj) : string :=
  match o with
  | OModel _ => "PreTrainedModel"
  | OTokenizer _ => "PreTrainedTokenizer"
  end.

(** ** The monad of Python code: state and exceptions *)

Definition M `{Transformers} (A : Type) : Type := world -> result A * world.

Section Monad.
Context `{Transformers}.

Definition ret {A} (a : A) : M A := fun w => (Ok a, w).

Definition raise {A} (e : exn) : M A := fun w => (Raise e, w).

Definition bind {A B} (m : M A) (k : A -> M B) : M B :=
  fun w =>
    match m w with
    | (Ok a, w') => k a w'
    | (Raise e, w') => (Raise e, w')
    end.

Definition lift {A} (r : result A) : M A := fun w => (r, w).

Definition log (e : event) : M unit :=
  fun w =>
    (Ok tt,
     {| globals := globals w; heap := heap w; trace := trace w ++ [e] |}).

Definition get_global (name : string) : M pyval :=
  fun w =>
    match globals w !! name with
    | Some v => (Ok v, w)
    | None => (Raise (NameError name), w)
    end.

Definition set_global (name : string) (v : pyval) : M unit :=
  fun w =>
    (Ok tt,
     {| globals := <[name := v]> (globals w);
        heap := heap w; trace := trace w |}).

Definition alloc (o : obj) : M pyval :=
  fun w =>
    (Ok (VRef (length (heap w))),
     {| globals := globals w; heap := heap w ++ [o]; trace := trace w |}).

Definition deref (a : addr) : M obj :=
  fun w =>
    match heap w !! a with
    | Some o => (Ok o, w)
    | None => (Raise (RuntimeError "dangling reference"), w)
    end.

Definition store (a : addr) (o : obj) : M unit :=
  fun w =>
    (Ok tt,
     {| globals := globals w;
        heap := <[a := o]> (heap w); trace := trace w |}).
End Monad.

Declare Scope py_scope.
Delimit Scope py_scope with py.
Notation "x <- m ;; k" := (bind m (fun x => k))
  (at level 100, m at next level, right associativity) : py_scope.
Notation "m ;;; k" := (bind m (fun _ => k))
  (at level 100, right associativity) : py_scope.
Local Open Scope py_scope.

(** ** The object model: what the program's expressions do *)

Section ObjectModel.
Context `{Transformers}.

(** The methods the program names, per class. *)
Definition has_method (o : obj) (name : string) : bool :=
  match o with
  | OModel _ => str_eq name "generate" || str_eq name "eval"
  | OTokenizer _ => str_eq name "decode"
  end.

(** The attribute reference [recv.name].  On a value that is no library
    object, or on a library object of a class without that method, it
    raises [AttributeError]; no library code runs. *)
Definition getattr (recv : pyval) (name : string) : M pyval :=
  match recv with
  | VRef a =>
      o <- deref a ;;
      if has_method o name then ret (VMethod a name)
      else raise (AttributeError (class_name o) name)
  | _ => raise (AttributeError (type_name recv) name)
  end.

(** [torch.nn.Module.eval]: clears [training] in place, returns self. *)
Definition eval_ (a : addr) (m : model_state weights) : M pyval :=
  store a (OModel (ModelState (params m) false)) ;;;
  ret (VRef a).

(** The call [callee(args, kwargs)]: a bound method runs the library's
    method on its receiver, a tokenizer object runs its [__call__]; the
    receiver's new state is written back to the heap. *)
Definition call (callee : pyval)
    (args : list pyval) (kwargs : gmap string pyval) : M pyval :=
  match callee with
  | VMethod a name =>
      o <- deref a ;;
      match o with
      | OModel m =>
          if str_eq name "generate" then
            log (LibCall name (Some a) args kwargs) ;;;
            let '(r, m') := model_generate m args kwargs in
            store a (OModel m') ;;;
            lift r
          else if str_eq name "eval" then
            log (LibCall name (Some a) args kwargs) ;;;
            eval_ a m
          else raise (AttributeError (class_name o) name)
      | OTokenizer t =>
          if str_eq name "decode" then
            log (LibCall name (Some a) args kwargs) ;;;
            let '(r, t') := tokenizer_decode t args kwargs in
            store a (OTokenizer t') ;;;
            lift r
          else raise (AttributeError (class_name o) name)
      end
  | VRef a =>
      o <- deref a ;;
      log (LibCall "__call__" (Some a) args kwargs) ;;;
      match o with
      | OTokenizer t =>
          let '(r, t') := tokenizer_call t args kwargs in
          store a (OTokenizer t') ;;;
          lift r
      | OModel m =>
          let '(r, m') := model_call m args kwargs in
          store a (OModel m') ;;;
          lift r
      end
  | _ =>
      raise (TypeError ("'" ++ type_name callee ++ "' object is not callable")%string)
  end.

(** [v[i]] for a literal index [i >= 0]. *)
Definition getitem (v : pyval) (i : nat) : M pyval :=
  match v with
  | VTuple l | VList l =>
      match l !! i with
      | Some x => ret x
      | None => raise (IndexError "index out of range")
      end
  | VStr s =>
      match Stdlib.Strings.String.get i s with
      | Some c => ret (VStr (String c EmptyString))
      | None => raise (IndexError "string index out of range")
      end
  | VDict _ => raise (KeyError "0")
  | _ =>
      raise (TypeError ("'" ++ type_name v ++ "' object is not subscriptable")%string)
  end.

(** The keyword arguments of a call that unpacks a mapping with a
    double star and then gives explicit keywords [k1=v1, ..., kn=vn]:
    the entries of the mapping together with the explicit keywords; a
    keyword given both ways is a [TypeError]. *)
Definition star_kwargs (mapping : pyval)
    (explicit : list (string * pyval)) : M (gmap string pyval) :=
  match mapping with
  | VDict d =>
      if forallb (fun kv => bool_decide (d !! kv.1 = None)) explicit
      then ret (foldr (fun kv acc => <[kv.1 := kv.2]> acc) d explicit)
      else raise (TypeError "got multiple values for keyword argument")
  | _ => raise (TypeError "argument after ** must be a mapping")
  end.

(** [a, b = v]. *)
Definition unpack2 (v : pyval) : M (pyval * pyval) :=
  match v with
  | VTuple [a; b] | VList [a; b] => ret (a, b)
  | VTuple _ | VList _ => raise (ValueError "wrong number of values to unpack")
  | _ =>
      raise (TypeError ("cannot unpack non-iterable " ++ type_name v ++ " object")%string)
  end.
End ObjectModel.

(** * model_loader.py *)

Module ModelLoader.
Section ModelLoader.
Context `{Transformers}.

Definition MODEL_NAME : string := "mistralai/Mistral-7B-Instruct-v0.2".

Definition AutoTokenizer_from_pretrained_
    (args : list pyval) (kwargs : gmap string pyval) : M pyval :=
  log (LibCall "AutoTokenizer.from_pretrained" None args kwargs) ;;;
  t <- lift (AutoTokenizer_from_pretrained args kwargs) ;;
  alloc (OTokenizer t).

Definition AutoModelForCausalLM_from_pretrained_
    (args : list pyval) (kwargs : gmap string pyval) : M pyval :=
  log (LibCall "AutoModelForCausalLM.from_pretrained" None args kwargs) ;;;
  m <- lift (AutoModelForCausalLM_from_pretrained args kwargs) ;;
  alloc (OModel m).

Definition load_model : M pyval :=
  log (EnterFunction "load_model") ;;;
  tokenizer <- AutoTokenizer_from_pretrained_ [VStr MODEL_NAME] ∅ ;;
  model <- AutoModelForCausalLM_from_pretrained_ [VStr MODEL_NAME]
             (<["torch_dtype" := VStr "auto"]>
                (<["device_map" := VStr "auto"]> ∅)) ;;
  eval <- getattr model "eval" ;;
  call eval [] ∅ ;;;
  ret (VTuple [model; tokenizer]).
End ModelLoader.
End ModelLoader.

(** * The web framework: FastAPI routes with pydantic bodies *)

(** A request of the only method the applications route.  The body is
    [None] when the bytes received are not JSON. *)
Inductive request : Type :=
| Post (path : string) (body : option pyval).

Record response : Type := Response {
  status : Z;
  content : pyval
}.

(** A validation error: the field and the kind of error. *)
Definition verror : Type := string * string.

(** What FastAPI can serialise as a JSON response body. *)
Fixpoint jsonable (v : pyval) : bool :=
  match v with
  | VNone | VBool _ | VInt _ | VFloat _ | VStr _ => true
  | VTuple l | VList l => forallb jsonable l
  | VDict d => map_fold (fun _ x acc => jsonable x && acc) true d
  | VRef _ | VMethod _ _ => false
  end.

Section Framework.
Context `{Transformers} `{Pydantic}.

(** One declared field [name: str], [name: int] or [name: float] of a
    [BaseModel], with its default if the class gives one.  A field
    without default is required. *)
Definition field_str (d : gmap string pyval) (name : string)
    (default : option string) : list verror + string :=
  match d !! name with
  | Some (VStr s) => inr s
  | Some v =>
      match lax_str v with
      | Some s => inr s
      | None => inl [(name, "string_type")]
      end
  | None =>
      match default with
      | Some s => inr s
      | None => inl [(name, "missing")]
      end
  end.

Definition field_int (d : gmap string pyval) (name : string)
    (default : option Z) : list verror + Z :=
  match d !! name with
  | Some (VInt n) => inr n
  | Some v =>
      match lax_int v with
      | Some n => inr n
      | None => inl [(name, "int_type")]
      end
  | None =>
      match default with
      | Some n => inr n
      | None => inl [(name, "missing")]
      end
  end.

Definition field_float (d : gmap string pyval) (name : string)
    (default : option float) : list verror + float :=
  match d !! name with
  | Some (VFloat f) => inr f
  | Some v =>
      match lax_float v with
      | Some f => inr f
      | None => inl [(name, "float_type")]
      end
  | None =>
      match default with
      | Some f => inr f
      | None => inl [(name, "missing")]
      end
  end.

Definition errors {A} (r : list verror + A) : list verror :=
  match r with
  | inl es => es
  | inr _ => []
  end.

Definition unprocessable (es : list verror) : response :=
  Response 422
    (VDict {[ "detail" :=
       VList ((fun e => VDict (<["loc" := VList [VStr "body"; VStr e.1]]>
                                {[ "type" := VStr e.2 ]})) <$> es) ]}).

Definition internal_server_error : response :=
  Response 500 (VStr "Internal Server Error").

Definition not_found : response :=
  Response 404 (VDict {[ "detail" := VStr "Not Found" ]}).

(** A route whose function takes one body parameter of a [BaseModel]
    class: the body is validated first and a body that does not validate
    is answered with 422 without calling the function; a value returned
    is sent with 200; an exception that leaves the function is answered
    with 500. *)
Definition endpoint {R} (validate : pyval -> list verror + R)
    (f : R -> M pyval) (body : option pyval) (w : world)
    : response * world :=
  match body with
  | None => (unprocessable [("body", "json_invalid")], w)
  | Some v =>
      match validate v with
      | inl es => (unprocessable es, w)
      | inr r =>
          match f r w with
          | (Ok v, w') =>
              if jsonable v then (Response 200 v, w')
              else (internal_server_error, w')
          | (Raise _, w') => (internal_server_error, w')
          end
      end
  end.
End Framework.

(** * main.py *)

Module Main.
Section Main.
Context `{Transformers} `{Pydantic}.

Record GenRequest : Type := {
  prompt : string;
  max_tokens : Z;
  temperature : float
}.

Definition GenRequest_validate (body : pyval)
    : list verror + GenRequest :=
  match body with
  | VDict d =>
      match field_str d "prompt" None,
            field_int d "max_tokens" (Some 128),
            field_float d "temperature" (Some 0.7%float) with
      | inr p, inr n, inr t =>
          inr {| prompt := p; max_tokens := n; temperature := t |}
      | r1, r2, r3 => inl (errors r1 ++ errors r2 ++ errors r3)
      end
  | _ => inl [("body", "model_attributes_type")]
  end.

(** The module's top level: [model, tokenizer = load_model()]. *)
Definition module_init : M unit :=
  r <- ModelLoader.load_model ;;
  mt <- unpack2 r ;;
  set_global "model" mt.1 ;;;
  set_global "tokenizer" mt.2.

Definition generate (req : GenRequest) : M pyval :=
  log (EnterFunction "generate") ;;;
  tokenizer <- get_global "tokenizer" ;;
  inputs <- call tokenizer [VStr (prompt req)]
              {[ "return_tensors" := VStr "pt" ]} ;;
  model <- get_global "model" ;;
  bound_generate <- getattr model "generate" ;;
  kwargs <- star_kwargs inputs
              [("max_new_tokens", VInt (max_tokens req));
               ("temperature", VFloat (temperature req))] ;;
  outputs <- call bound_generate [] kwargs ;;
  tokenizer <- get_global "tokenizer" ;;
  bound_decode <- getattr tokenizer "decode" ;;
  outputs0 <- getitem outputs 0 ;;
  text <- call bound_decode [outputs0]
            {[ "skip_special_tokens" := VBool true ]} ;;
  ret (VDict {[ "completion" := text ]}).

(** The application: the one route [POST /generate]. *)
Definition app (r : request) (w : world) : response * world :=
  match r with
  | Post path body =>
      if str_eq path "/generate"
      then endpoint GenRequest_validate generate body w
      else (not_found, w)
  end.
End Main.
End Main.

(** * handler.py *)

Module Handler.
Section Handler.
Context `{Transformers} `{Pydantic}.

Record Input : Type := {
  prompt : string
}.

Definition Input_validate (body : pyval) : list verror + Input :=
  match body with
  | VDict d =>
      match field_str d "prompt" None with
      | inr p => inr {| prompt := p |}
      | r1 => inl (errors r1)
      end
  | _ => inl [("body", "model_attributes_type")]
  end.

(** The module's top level: [model = load_model()]. *)
Definition module_init : M unit :=
  r <- ModelLoader.load_model ;;
  set_global "model" r.

Definition run (input : Input) : M pyval :=
  log (EnterFunction "run") ;;;
  model <- get_global "model" ;;
  bound_generate <- getattr model "generate" ;;
  response <- call bound_generate [VStr (prompt input)] ∅ ;;
  ret (VDict {[ "output" := response ]}).

(** The application: the one route [POST /run]. *)
Definition app (r : request) (w : world) : response * world :=
  match r with
  | Post path body =>
      if str_eq path "/run"
      then endpoint Input_validate run body w
      else (not_found, w)
  end.
End Handler.
End Handler.

(** * A server process *)

(** Each module is the entry point of its own server process: the module
    is imported, which runs its top level once, and the application then
    answers requests one after the other.  A top level that raises ends
    the process before any request is served. *)
Inductive application : Type :=
| main_py
| handler_py.

Section Process.
Context `{Transformers} `{Pydantic}.

Definition module_init (a : application) : M unit :=
  match a with
  | main_py => Main.module_init
  | handler_py => Handler.module_init
  end.

Definition serve (a : application) : request -> world -> response * world :=
  match a with
  | main_py => Main.app
  | handler_py => Handler.app
  end.

Fixpoint serve_all (a : application) (rs : list request) (w : world)
    : list response * world :=
  match rs with
  | [] => ([], w)
  | r :: rs' =>
      let '(resp, w1) := serve a r w in
      let '(resps, w2) := serve_all a rs' w1 in
      (resp :: resps, w2)
  end.

Definition process (a : application) (rs : list request) (w0 : world)
    : option (list response) * world :=
  match module_init a w0 with
  | (Ok _, w1) =>
      let '(resps, w2) := serve_all a rs w1 in (Some resps, w2)
  | (Raise _, w1) => (None, w1)
  end.

Definition is_load_model (e : event) : bool :=
  match e with
  | EnterFunction f => str_eq f "load_model"
  | LibCall _ _ _ _ => false
  end.
End Process.

(** * A stub library, to run the program on *)

Module Stub.
(** Token ids are character codes; ids below 3 are the special tokens
    (1 begins a sequence).  The stub model appends the token of an
    exclamation mark [max_new_tokens] times, and echoes its input when
    asked for no new token; its weights are the number of extra
    sequences it returns. *)
Definition encode (s : string) : list pyval :=
  VInt 1 :: ((fun c => VInt (Z.of_N (Ascii.N_of_ascii c)))
               <$> Stdlib.Strings.String.list_ascii_of_string s).

Definition decode_token (skip : bool) (v : pyval) : string :=
  match v with
  | VInt z =>
      if z <? 3 then (if skip then "" else "<s>")
      else String (Ascii.ascii_of_N (Z.to_N z)) EmptyString
  | _ => ""
  end.

Definition decode (skip : bool) (ids : list pyval) : string :=
  foldr (fun v acc => (decode_token skip v ++ acc)%string) "" ids.

Definition skip_special (kwargs : gmap string pyval) : bool :=
  match kwargs !! "skip_special_tokens" with
  | Some (VBool b) => b
  | _ => false
  end.

#[export] Instance transformers : Transformers := {|
  weights := nat;
  vocab := unit;
  AutoTokenizer_from_pretrained _ _ := Ok tt;
  AutoModelForCausalLM_from_pretrained _ _ := Ok (ModelState 0%nat true);
  tokenizer_call t args _ :=
    match args with
    | [VStr s] =>
        (Ok (VDict (<["input_ids" := VList [VList (encode s)]]>
                      {[ "attention_mask" :=
                           VList [VList ((fun _ => VInt 1) <$> encode s)] ]})), t)
    | _ => (Raise (TypeError "text input must be of type str"), t)
    end;
  tokenizer_decode t args kwargs :=
    match args with
    | [VList ids] => (Ok (VStr (decode (skip_special kwargs) ids)), t)
    | _ => (Raise (TypeError "argument 'ids'"), t)
    end;
  model_call m _ _ := (Raise (RuntimeError "forward is not stubbed"), m);
  model_generate m _ kwargs :=
    match kwargs !! "max_new_tokens", kwargs !! "input_ids" with
    | Some (VInt n), Some ids =>
        if n =? 0 then (Ok ids, m)
        else
          match ids with
          | VList [VList row] =>
              (Ok (VList (VList (row ++ replicate (Z.to_nat n) (VInt 33))
                            :: replicate (params m) (VList []))), m)
          | _ => (Raise (ValueError "input_ids"), m)
          end
    | _, _ => (Raise (ValueError "input_ids and max_new_tokens"), m)
    end
|}.

(** Strict validation: a value of another type is refused. *)
#[export] Instance pydantic : Pydantic := {|
  lax_str _ := None;
  lax_int _ := None;
  lax_float _ := None
|}.

Definition fresh : world :=
  {| globals := ∅; heap := []; trace := [] |}.

(** The state of a [main.py] process that holds, in evaluation mode, a
    model with [k] extra output sequences. *)
Definition started (k : nat) : world :=
  {| globals := <["model" := VRef 1%nat]> {[ "tokenizer" := VRef 0%nat ]};
     heap := [OTokenizer tt; OModel (ModelState k false)];
     trace := [] |}.

(** Three request bodies. *)
Definition hi : gmap string pyval := {[ "prompt" := VStr "hi" ]}.

Definition hi3 : gmap string pyval :=
  <["max_tokens" := VInt 3]> {[ "prompt" := VStr "hi" ]}.

Definition hi0 : gmap string pyval :=
  <["max_tokens" := VInt 0]> {[ "prompt" := VStr "hi" ]}.
End Stub.

(** * Libraries that fail, to run the error paths on *)

Module Faulty.
(** What goes wrong: the tokenizer or the weights cannot be fetched; the
    tokenizer refuses its input, or returns an encoding that already
    holds a [temperature]; the model runs out of memory, or returns an
    empty batch.  Everything else is the stub. *)
Inductive fault : Type :=
| tokenizer_unreachable
| model_unreachable
| tokenizer_refuses
| duplicate_keyword
| out_of_memory
| empty_batch.

Definition library (f : fault) : Transformers := {|
  weights := nat;
  vocab := unit;
  AutoTokenizer_from_pretrained _ _ :=
    match f with
    | tokenizer_unreachable => Raise (OSError "cannot reach the model repository")
    | _ => Ok tt
    end;
  AutoModelForCausalLM_from_pretrained _ _ :=
    match f with
    | model_unreachable => Raise (OSError "cannot fetch the weights")
    | _ => Ok (ModelState 0%nat true)
    end;
  tokenizer_call t args kwargs :=
    match f with
    | tokenizer_refuses => (Raise (ValueError "text input"), t)
    | duplicate_keyword =>
        (Ok (VDict (<["temperature" := VFloat 1]>
                      {[ "input_ids" := VList [VList [VInt 1]] ]})), t)
    | _ => @tokenizer_call Stub.transformers t args kwargs
    end;
  tokenizer_decode t args kwargs :=
    @tokenizer_decode Stub.transformers t args kwargs;
  model_call m args kwargs := @model_call Stub.transformers m args kwargs;
  model_generate m args kwargs :=
    match f with
    | out_of_memory => (Raise (RuntimeError "CUDA out of memory"), m)
    | empty_batch => (Ok (VList []), m)
    | _ => @model_generate Stub.transformers m args kwargs
    end
|}.

Definition fresh (f : fault) : @world (library f) :=
  {| globals := ∅; heap := []; trace := [] |}.

(** The state of a [main.py] process on such a library. *)
Definition started (f : fault) : @world (library f) :=
  {| globals := <["model" := VRef 1%nat]> {[ "tokenizer" := VRef 0%nat ]};
     heap := [@OTokenizer (library f) tt;
              @OModel (library f) (ModelState 0%nat false)];
     trace := [] |}.
End Faulty.

(** * States of a process, and relations between them *)

(** A relation kept by every run of a computation. *)
Definition stable `{Transformers} {A} (R : relation world) (c : M A) : Prop :=
  forall w, R w (c w).2.

Section States.
Context `{Transformers} `{Pydantic}.

(** The world once a library method has returned: the receiver holds its
    new state and the call is on the trace. *)
Definition after_call (w : world) (a : addr) (o : obj)
    (name : string) (args : list pyval) (kwargs : gmap string pyval)
    : world :=
  {| globals := globals w;
     heap := <[a := o]> (heap w);
     trace := trace w ++ [LibCall name (Some a) args kwargs] |}.

(** The world once a function of the repository has been entered. *)
Definition entered (w : world) (f : string) : world :=
  {| globals := globals w; heap := heap w;
     trace := trace w ++ [EnterFunction f] |}.

(** The three stages of [load_model]. *)
Definition model_kwargs : gmap string pyval :=
  <["torch_dtype" := VStr "auto"]> (<["device_map" := VStr "auto"]> ∅).

Definition loading (w : world) : world :=
  {| globals := globals w; heap := heap w;
     trace := trace w ++
       [EnterFunction "load_model";
        LibCall "AutoTokenizer.from_pretrained" None
          [VStr ModelLoader.MODEL_NAME] ∅] |}.

Definition tokenizer_loaded (w : world) (t : vocab) : world :=
  {| globals := globals w; heap := heap w ++ [OTokenizer t];
     trace := trace (loading w) ++
       [LibCall "AutoModelForCausalLM.from_pretrained" None
          [VStr ModelLoader.MODEL_NAME] model_kwargs] |}.

Definition loaded (w : world) (t : vocab) (m : model_state weights)
    : world :=
  {| globals := globals w;
     heap := heap w ++ [OTokenizer t; OModel (ModelState (params m) false)];
     trace := trace (tokenizer_loaded w t) ++
       [LibCall "eval" (Some (S (length (heap w)))) [] ∅] |}.

(** The namespace of [main.py] once its top level has run. *)
Definition main_bound (w : world) (t : vocab) (m : model_state weights)
    : world :=
  {| globals :=
       <["tokenizer" := VRef (length (heap w))]>
         (<["model" := VRef (S (length (heap w)))]> (globals w));
     heap := heap (loaded w t m);
     trace := trace (loaded w t m) |}.

(** The namespace of [handler.py] once its top level has run. *)
Definition handler_bound (w : world) (t : vocab) (m : model_state weights)
    : world :=
  {| globals :=
       <["model" :=
           VTuple [VRef (S (length (heap w))); VRef (length (heap w))]]>
         (globals w);
     heap := heap (loaded w t m);
     trace := trace (loaded w t m) |}.

Definition bound (a : application) :=
  match a with
  | main_py => main_bound
  | handler_py => handler_bound
  end.

(** A [main.py] process that serves: [model] and [tokenizer] are bound
    to a model and a tokenizer on the heap. *)
Record serving (w : world) (am : addr) (m : model_state weights)
    (atok : addr) (t : vocab) : Prop := {
  serving_model : globals w !! "model" = Some (VRef am);
  serving_model_obj : heap w !! am = Some (OModel m);
  serving_tokenizer : globals w !! "tokenizer" = Some (VRef atok);
  serving_tokenizer_obj : heap w !! atok = Some (OTokenizer t)
}.

(** The keyword arguments of the three library calls of [generate]. *)
Definition tokenizer_kwargs : gmap string pyval :=
  {[ "return_tensors" := VStr "pt" ]}.

Definition generate_kwargs (inputs : gmap string pyval)
    (req : Main.GenRequest) : gmap string pyval :=
  <["max_new_tokens" := VInt (Main.max_tokens req)]>
    (<["temperature" := VFloat (Main.temperature req)]> inputs).

Definition decode_kwargs : gmap string pyval :=
  {[ "skip_special_tokens" := VBool true ]}.

(** The last two lines of [generate], from the binding of [outputs] on
    (a name for the proofs: [generate] is not written with it). *)
Definition generate_tail (outputs : pyval) : M pyval :=
  tokenizer <- get_global "tokenizer" ;;
  bound_decode <- getattr tokenizer "decode" ;;
  outputs0 <- getitem outputs 0 ;;
  text <- call bound_decode [outputs0]
            {[ "skip_special_tokens" := VBool true ]} ;;
  ret (VDict {[ "completion" := text ]}).

(** The world in which [model.generate] returns. *)
Definition generated (w : world) (am : addr) (m1 : model_state weights)
    (atok : addr) (t1 : vocab) (req : Main.GenRequest)
    (inputs : gmap string pyval) : world :=
  after_call
    (after_call (entered w "generate") atok (OTokenizer t1)
       "__call__" [VStr (Main.prompt req)] tokenizer_kwargs)
    am (OModel m1) "generate" [] (generate_kwargs inputs req).

(** The module's names are bound to what they were bound to. *)
Definition same_globals (w w' : world) : Prop := globals w' = globals w.

(** The trace has grown, and not by an entry into [load_model]. *)
Definition no_reload (w w' : world) : Prop :=
  exists evs, trace w' = trace w ++ evs
              /\ Forall (fun e => is_load_model e = false) evs.

(** Inference that leaves its receiver as it found it. *)
Definition read_only_inference : Prop :=
  (forall t args kwargs, (tokenizer_call t args kwargs).2 = t)
  /\ (forall t args kwargs, (tokenizer_decode t args kwargs).2 = t)
  /\ (forall m args kwargs, (model_call m args kwargs).2 = m)
  /\ (forall m args kwargs, (model_generate m args kwargs).2 = m).

(** Every model on the heap is in evaluation mode, as [load_model]
    leaves the one it loads. *)
Definition eval_mode (w : world) : Prop :=
  forall a m, heap w !! a = Some (OModel m) -> training m = false.

Definition same_heap (w w' : world) : Prop :=
  eval_mode w -> heap w' = heap w.

(** The names are bound as they were and every object on the heap is
    still an object of its class. *)
Definition same_classes (w w' : world) : Prop :=
  globals w' = globals w
  /\ Forall2 (fun o o' => class_name o = class_name o') (heap w) (heap w').

(** The path each application routes. *)
Definition route (a : application) : string :=
  match a with
  | main_py => "/generate"
  | handler_py => "/run"
  end.

(** A body without the field [prompt]: no JSON at all, a JSON value
    that is no object, or an object without that key. *)
Definition lacks_prompt (body : option pyval) : Prop :=
  match body with
  | Some (VDict d) => d !! "prompt" = None
  | _ => True
  end.

(** A model that echoes its input when asked for no new token. *)
Definition echoes_at_zero (m : model_state weights) : Prop :=
  forall args kwargs ids,
    kwargs !! "max_new_tokens" = Some (VInt 0) ->
    kwargs !! "input_ids" = Some ids ->
    (model_generate m args kwargs).1 = Ok ids.

(** What the specification says of [load_model], word for word: the pair
    it returns holds the tokenizer first and the model, in evaluation
    mode, second. *)
Definition returns_tokenizer_then_model (w : world) : Prop :=
  exists atok am t m w',
    ModelLoader.load_model w = (Ok (VTuple [VRef atok; VRef am]), w')
    /\ heap w' !! atok = Some (OTokenizer t)
    /\ heap w' !! am = Some (OModel m)
    /\ training m = false.
End States.

(** ** Worlds that differ in their trace alone *)

Section Oblivious.
Context `{Transformers} `{Pydantic}.

(** The same names bound to the same values, the same objects on the
    heap: what a request can read. *)
Definition same_store (w1 w2 : world) : Prop :=
  globals w1 = globals w2 /\ heap w1 = heap w2.

(** A computation that reads nothing of the trace: on two worlds with
    the same store it has the same outcome and leaves the same store. *)
Definition oblivious {A} (c : M A) : Prop :=
  forall w1 w2,
    same_store w1 w2 ->
    (c w1).1 = (c w2).1 /\ same_store (c w1).2 (c w2).2.

(** Two loads, one after the other. *)
Definition load_twice : M (pyval * pyval) :=
  first <- ModelLoader.load_model ;;
  second <- ModelLoader.load_model ;;
  ret (first, second).
End Oblivious.

(** * Reasoning about Python code *)

(** ** One step at a time *)

Section Steps.
Context `{Transformers}.

Lemma bind_ok {A B} (c : M A) (k : A -> M B) w a w' :
  c w = (Ok a, w') -> bind c k w = k a w'.
Proof. intros Hc. unfold bind. by rewrite Hc. Qed.

Lemma bind_raise {A B} (c : M A) (k : A -> M B) w e w' :
  c w = (Raise e, w') -> bind c k w = (Raise e, w').
Proof. intros Hc. unfold bind. by rewrite Hc. Qed.

Lemma get_global_ok w name v :
  globals w !! name = Some v -> get_global name w = (Ok v, w).
Proof. intros Hv. unfold get_global. by rewrite Hv. Qed.

Lemma getattr_ok w a o name :
  heap w !! a = Some o -> has_method o name = true ->
  getattr (VRef a) name w = (Ok (VMethod a name), w).
Proof.
  intros Ha Hm. unfold getattr, bind, deref. rewrite Ha. simpl.
  by rewrite Hm.
Qed.

Lemma call_eval w a m args kwargs :
  heap w !! a = Some (OModel m) ->
  call (VMethod a "eval") args kwargs w =
  (Ok (VRef a),
   after_call w a (OModel (ModelState (params m) false))
     "eval" args kwargs).
Proof.
  intros Ha. unfold call, eval_, bind, deref, log, store. by rewrite Ha.
Qed.

Lemma call_generate w a m args kwargs r m' :
  heap w !! a = Some (OModel m) ->
  model_generate m args kwargs = (r, m') ->
  call (VMethod a "generate") args kwargs w =
  (r, after_call w a (OModel m') "generate" args kwargs).
Proof.
  intros Ha Hg. unfold call, bind, deref, log, store, lift.
  rewrite Ha. simpl. rewrite Hg. by destruct r.
Qed.

Lemma call_decode w a t args kwargs r t' :
  heap w !! a = Some (OTokenizer t) ->
  tokenizer_decode t args kwargs = (r, t') ->
  call (VMethod a "decode") args kwargs w =
  (r, after_call w a (OTokenizer t') "decode" args kwargs).
Proof.
  intros Ha Hg. unfold call, bind, deref, log, store, lift.
  rewrite Ha. simpl. rewrite Hg. by destruct r.
Qed.

Lemma call_tokenizer w a t args kwargs r t' :
  heap w !! a = Some (OTokenizer t) ->
  tokenizer_call t args kwargs = (r, t') ->
  call (VRef a) args kwargs w =
  (r, after_call w a (OTokenizer t') "__call__" args kwargs).
Proof.
  intros Ha Hg. unfold call, bind, deref, log, store, lift.
  rewrite Ha. simpl. rewrite Hg. by destruct r.
Qed.
End Steps.



(** ** Relations that every step of a computation keeps *)

Create HintDb stable.

Section Stable.
Context `{Transformers} `{Pydantic}.
Variable R : relation world.
Hypothesis R_preorder : PreOrder R.
Hypothesis R_log : forall e, is_load_model e = false -> stable R (log e).
Hypothesis R_call :
  forall callee args kwargs, stable R (call callee args kwargs).

Lemma stable_pure {A} (c : M A) : (forall w, (c w).2 = w) -> stable R c.
Proof. intros Hc w. rewrite Hc. reflexivity. Qed.

Lemma stable_bind {A B} (c : M A) (k : A -> M B) :
  stable R c -> (forall a, stable R (k a)) -> stable R (bind c k).
Proof.
  intros Hc Hk w. unfold bind.
  specialize (Hc w). destruct (c w) as [[a|e] w1]; simpl in *.
  - transitivity w1; [exact Hc | apply Hk].
  - exact Hc.
Qed.

Lemma stable_ret {A} (a : A) : stable R (ret a).
Proof. apply stable_pure. reflexivity. Qed.

Lemma stable_raise {A} (e : exn) : stable R (raise (A := A) e).
Proof. apply stable_pure. reflexivity. Qed.

Lemma stable_get_global name : stable R (get_global name).
Proof.
  apply stable_pure. intros w. unfold get_global.
  destruct (globals w !! name); reflexivity.
Qed.

Lemma stable_getattr recv name : stable R (getattr recv name).
Proof.
  apply stable_pure. intros w.
  destruct recv; try reflexivity.
  unfold getattr, bind, deref.
  destruct (heap w !! a) as [o|]; [|reflexivity]. simpl.
  destruct (has_method o name); reflexivity.
Qed.

Lemma stable_getitem v i : stable R (getitem v i).
Proof.
  apply stable_pure. intros w. unfold getitem.
  destruct v; try reflexivity.
  - destruct (Stdlib.Strings.String.get i s); reflexivity.
  - destruct (l !! i); reflexivity.
  - destruct (l !! i); reflexivity.
Qed.

Lemma stable_star_kwargs mapping explicit :
  stable R (star_kwargs mapping explicit).
Proof.
  apply stable_pure. intros w. unfold star_kwargs.
  destruct mapping; try reflexivity.
  destruct (forallb _ explicit); reflexivity.
Qed.

#[local] Hint Resolve stable_bind stable_ret stable_raise stable_get_global
  stable_getattr stable_getitem stable_star_kwargs : stable.

Lemma stable_generate req : stable R (Main.generate req).
Proof.
  unfold Main.generate.
  repeat (apply stable_bind; [|intros ?]); auto with stable.
Qed.

Lemma stable_generate_tail outputs : stable R (generate_tail outputs).
Proof.
  unfold generate_tail.
  repeat (apply stable_bind; [|intros ?]); auto with stable.
Qed.

Lemma stable_run input : stable R (Handler.run input).
Proof.
  unfold Handler.run.
  repeat (apply stable_bind; [|intros ?]); auto with stable.
Qed.

Lemma stable_endpoint {A} (validate : pyval -> list verror + A) f body :
  (forall r, stable R (f r)) ->
  forall w, R w (endpoint validate f body w).2.
Proof.
  intros Hf w. unfold endpoint.
  destruct body as [v|]; [|reflexivity].
  destruct (validate v) as [es|r]; [reflexivity|].
  specialize (Hf r w).
  destruct (f r w) as [[v'|e] w1]; simpl in *; [|exact Hf].
  destruct (jsonable v'); exact Hf.
Qed.

Lemma stable_serve a r w : R w (serve a r w).2.
Proof.
  destruct a, r as [path body]; simpl.
  - unfold Main.app. destruct (str_eq path "/generate"); [|reflexivity].
    apply stable_endpoint, stable_generate.
  - unfold Handler.app. destruct (str_eq path "/run"); [|reflexivity].
    apply stable_endpoint, stable_run.
Qed.

Lemma stable_serve_all a rs w : R w (serve_all a rs w).2.
Proof.
  revert w. induction rs as [|r rs IH]; intros w; simpl; [reflexivity|].
  pose proof (stable_serve a r w) as Hr.
  destruct (serve a r w) as [resp w1]. specialize (IH w1).
  destruct (serve_all a rs w1) as [resps w2]. simpl in *.
  transitivity w1; assumption.
Qed.
End Stable.


(** ** Three relations kept by every request *)

Section Frames.
Context `{Transformers} `{Pydantic}.

#[export] Instance same_globals_preorder : PreOrder same_globals.
Proof.
  split; [intros w; reflexivity|].
  intros w1 w2 w3 H12 H23. unfold same_globals in *. congruence.
Qed.

#[export] Instance no_reload_preorder : PreOrder no_reload.
Proof.
  split.
  - intros w. exists []. split; [by rewrite app_nil_r | constructor].
  - intros w1 w2 w3 (e1 & H1 & F1) (e2 & H2 & F2).
    exists (e1 ++ e2). split.
    + by rewrite H2, H1, app_assoc.
    + by apply Forall_app.
Qed.

#[export] Instance same_heap_preorder : PreOrder same_heap.
Proof.
  split; [intros w _; reflexivity|].
  intros w1 w2 w3 H12 H23 Hw. unfold same_heap, eval_mode in *.
  rewrite H23, H12; auto. rewrite H12; auto.
Qed.

Lemma same_globals_log e : stable same_globals (log e).
Proof. intros w. reflexivity. Qed.

Lemma no_reload_log e : is_load_model e = false -> stable no_reload (log e).
Proof. intros He w. exists [e]. split; [reflexivity | by constructor]. Qed.

Lemma same_heap_log e : stable same_heap (log e).
Proof. intros w _. reflexivity. Qed.

(** How a call can end. *)
Ltac call_cases callee :=
  unfold call, eval_, bind, deref, log, store, lift, ret, raise;
  destruct callee; simpl; try done;
  repeat (case_match; simplify_eq/=).

Lemma same_globals_call callee args kwargs :
  stable same_globals (call callee args kwargs).
Proof. intros w. unfold same_globals. call_cases callee; done. Qed.

Lemma no_reload_call callee args kwargs :
  stable no_reload (call callee args kwargs).
Proof.
  intros w. unfold no_reload.
  call_cases callee;
    first [ by exists []; rewrite app_nil_r
          | eexists [_]; split; [reflexivity|by constructor] ].
Qed.

Lemma same_heap_call_ro :
  read_only_inference ->
  forall callee args kwargs, stable same_heap (call callee args kwargs).
Proof.
  intros (Hcall & Hdecode & Hforward & Hgenerate) callee args kwargs w Hw.
  call_cases callee;
    repeat match goal with
           | E : tokenizer_call ?t ?a ?k = _ |- _ =>
               pose proof (Hcall t a k) as Hro; rewrite E in Hro; clear E
           | E : tokenizer_decode ?t ?a ?k = _ |- _ =>
               pose proof (Hdecode t a k) as Hro; rewrite E in Hro; clear E
           | E : model_call ?m ?a ?k = _ |- _ =>
               pose proof (Hforward m a k) as Hro; rewrite E in Hro; clear E
           | E : model_generate ?m ?a ?k = _ |- _ =>
               pose proof (Hgenerate m a k) as Hro; rewrite E in Hro; clear E
           end;
    simplify_eq/=; try done; try (by apply list_insert_id).
  match goal with
  | E : heap _ !! _ = Some (OModel ?m) |- _ =>
      pose proof (Hw _ _ E) as Hm; destruct m; simpl in *; subst
  end.
  by apply list_insert_id.
Qed.
End Frames.


(** ** What [load_model] does *)

Section Loading.
Context `{Transformers} `{Pydantic}.

Lemma load_model_eq w :
  ModelLoader.load_model w =
  match AutoTokenizer_from_pretrained [VStr ModelLoader.MODEL_NAME] ∅ with
  | Raise e => (Raise e, loading w)
  | Ok t =>
      match AutoModelForCausalLM_from_pretrained
              [VStr ModelLoader.MODEL_NAME] model_kwargs with
      | Raise e => (Raise e, tokenizer_loaded w t)
      | Ok m =>
          (Ok (VTuple [VRef (S (length (heap w))); VRef (length (heap w))]),
           loaded w t m)
      end
  end.
Proof.
  unfold ModelLoader.load_model, ModelLoader.AutoTokenizer_from_pretrained_,
    ModelLoader.AutoModelForCausalLM_from_pretrained_.
  fold model_kwargs.
  erewrite bind_ok by reflexivity.
  destruct (AutoTokenizer_from_pretrained _ _) as [t|e].
  2: { erewrite bind_raise; [|by erewrite bind_ok by reflexivity].
       unfold loading. cbn [globals heap trace]. by rewrite <- !app_assoc. }
  erewrite bind_ok; [|by erewrite bind_ok by reflexivity].
  cbn [globals heap trace].
  destruct (AutoModelForCausalLM_from_pretrained _ _) as [m|e].
  2: { erewrite bind_raise; [|by erewrite bind_ok by reflexivity].
       unfold tokenizer_loaded, loading. cbn [globals heap trace].
       by rewrite <- !app_assoc. }
  erewrite bind_ok; [|by erewrite bind_ok by reflexivity].
  cbn [globals heap trace].
  set (w2 := {| globals := _ |}).
  assert (Hl : heap w2 !! length (heap w ++ [OTokenizer t]) = Some (OModel m)).
  { subst w2. cbn [heap]. by rewrite lookup_app_r, Nat.sub_diag. }
  erewrite bind_ok by (eapply getattr_ok; [exact Hl|reflexivity]).
  erewrite bind_ok by (by apply call_eval).
  unfold ret, after_call, loaded, tokenizer_loaded, loading. subst w2.
  cbn [globals heap trace params].
  rewrite length_app, Nat.add_1_r. cbn [length].
  do 3 f_equal.
  - rewrite insert_app_r_alt by (rewrite length_app; simpl; lia).
    rewrite length_app, Nat.add_1_r, Nat.sub_diag. simpl.
    by rewrite <- app_assoc.
  - by rewrite <- !app_assoc.
Qed.
End Loading.


Section Initialisation.
Context `{Transformers} `{Pydantic}.

Lemma module_init_eq a w :
  module_init a w =
  match AutoTokenizer_from_pretrained [VStr ModelLoader.MODEL_NAME] ∅ with
  | Raise e => (Raise e, loading w)
  | Ok t =>
      match AutoModelForCausalLM_from_pretrained
              [VStr ModelLoader.MODEL_NAME] model_kwargs with
      | Raise e => (Raise e, tokenizer_loaded w t)
      | Ok m => (Ok tt, bound a w t m)
      end
  end.
Proof.
  destruct a; simpl; unfold Main.module_init, Handler.module_init;
    unfold bind at 1; rewrite load_model_eq;
    destruct (AutoTokenizer_from_pretrained _ _) as [t|e]; try done;
    destruct (AutoModelForCausalLM_from_pretrained _ _) as [m|e]; done.
Qed.

Lemma module_init_ok a w w1 :
  module_init a w = (Ok tt, w1) ->
  exists t m, w1 = bound a w t m.
Proof.
  rewrite module_init_eq.
  destruct (AutoTokenizer_from_pretrained _ _) as [t|e]; [|done].
  destruct (AutoModelForCausalLM_from_pretrained _ _) as [m|e]; [|done].
  intros [= <-]. by exists t, m.
Qed.

Lemma module_init_trace a w :
  exists evs,
    trace (module_init a w).2 = trace w ++ EnterFunction "load_model" :: evs
    /\ Forall (fun e => is_load_model e = false) evs.
Proof.
  rewrite module_init_eq.
  destruct (AutoTokenizer_from_pretrained _ _) as [t|e].
  2: { eexists. split; [reflexivity|]. by repeat constructor. }
  destruct (AutoModelForCausalLM_from_pretrained _ _) as [m|e].
  2: { eexists. split.
       - cbn. rewrite <- app_assoc. reflexivity.
       - by repeat constructor. }
  eexists. split.
  - destruct a; cbn; rewrite <- !app_assoc; reflexivity.
  - by repeat constructor.
Qed.

Lemma bound_eval_mode a w t m :
  eval_mode w -> eval_mode (bound a w t m).
Proof.
  intros Hw i mi Hi.
  assert (heap (bound a w t m)
          = heap w ++ [OTokenizer t; OModel (ModelState (params m) false)])
    as Hh by (by destruct a).
  rewrite Hh in Hi. apply lookup_app_Some in Hi as [Hi|[_ Hi]];
    [by eapply Hw|].
  destruct (i - length (heap w))%nat as [|[|?]]; simplify_eq/=; done.
Qed.
End Initialisation.


(** ** The route [/generate], call by call *)

Section Generate.
Context `{Transformers} `{Pydantic}.

Lemma serving_entered w am m atok t f :
  serving w am m atok t -> serving (entered w f) am m atok t.
Proof. intros []. by split. Qed.

Lemma serving_distinct w am m atok t : serving w am m atok t -> am <> atok.
Proof. intros [_ Hm _ Ht] ->. congruence. Qed.

Lemma serving_tokenizer_call w am m atok t t' name args kwargs :
  serving w am m atok t ->
  serving (after_call w atok (OTokenizer t') name args kwargs) am m atok t'.
Proof.
  intros Hw. pose proof (serving_distinct _ _ _ _ _ Hw) as Hne.
  destruct Hw as [Hgm Hm Hgt Ht]. split; try done; simpl.
  - by rewrite list_lookup_insert_ne.
  - apply list_lookup_insert_eq. by eapply lookup_lt_Some.
Qed.

Lemma serving_model_call w am m atok t m' name args kwargs :
  serving w am m atok t ->
  serving (after_call w am (OModel m') name args kwargs) am m' atok t.
Proof.
  intros Hw. pose proof (serving_distinct _ _ _ _ _ Hw) as Hne.
  destruct Hw as [Hgm Hm Hgt Ht]. split; try done; simpl.
  - apply list_lookup_insert_eq. by eapply lookup_lt_Some.
  - by rewrite list_lookup_insert_ne.
Qed.

Lemma main_bound_serving w t m :
  serving (main_bound w t m)
    (S (length (heap w))) (ModelState (params m) false)
    (length (heap w)) t.
Proof.
  split; simpl.
  - by rewrite lookup_insert_ne, lookup_insert_eq.
  - rewrite lookup_app_r by lia.
    by replace (S (length (heap w)) - length (heap w))%nat with 1%nat by lia.
  - by rewrite lookup_insert_eq.
  - by rewrite lookup_app_r, Nat.sub_diag.
Qed.

Lemma serving_generated w am m atok t req inputs m1 t1 :
  serving w am m atok t ->
  serving (generated w am m1 atok t1 req inputs) am m1 atok t1.
Proof.
  intros Hw. unfold generated.
  by eapply serving_model_call, serving_tokenizer_call, serving_entered.
Qed.

(** From the entry into [generate] to the return of [model.generate]. *)
Lemma generate_until_generated w am m atok t req inputs t1 r m1 :
  serving w am m atok t ->
  tokenizer_call t [VStr (Main.prompt req)] tokenizer_kwargs
    = (Ok (VDict inputs), t1) ->
  inputs !! "max_new_tokens" = None ->
  inputs !! "temperature" = None ->
  model_generate m [] (generate_kwargs inputs req) = (r, m1) ->
  Main.generate req w =
  match r with
  | Ok outputs =>
      generate_tail outputs (generated w am m1 atok t1 req inputs)
  | Raise e => (Raise e, generated w am m1 atok t1 req inputs)
  end.
Proof.
  intros Hw Htok Hn Ht Hgen.
  apply (serving_entered _ _ _ _ _ "generate") in Hw.
  unfold Main.generate.
  erewrite bind_ok by reflexivity. fold (entered w "generate").
  erewrite bind_ok by (apply get_global_ok, Hw).
  erewrite bind_ok by (eapply call_tokenizer; [apply Hw|exact Htok]).
  eapply serving_tokenizer_call in Hw.
  erewrite bind_ok by (apply get_global_ok, Hw).
  erewrite bind_ok by (eapply getattr_ok; [apply Hw|reflexivity]).
  erewrite bind_ok.
  2: { unfold star_kwargs. simpl. rewrite Hn, Ht.
       rewrite !bool_decide_eq_true_2 by done. reflexivity. }
  simpl. fold (generate_kwargs inputs req).
  destruct r as [outputs|e].
  - erewrite bind_ok by (eapply call_generate; [apply Hw|exact Hgen]).
    reflexivity.
  - erewrite bind_raise by (eapply call_generate; [apply Hw|exact Hgen]).
    reflexivity.
Qed.

(** From there to the return of [generate]. *)
Lemma generate_tail_eq w am m atok t seq rest r t2 :
  serving w am m atok t ->
  tokenizer_decode t [seq] decode_kwargs = (r, t2) ->
  generate_tail (VList (seq :: rest)) w =
  (match r with
   | Ok text => Ok (VDict {[ "completion" := text ]})
   | Raise e => Raise e
   end,
   after_call w atok (OTokenizer t2) "decode" [seq] decode_kwargs).
Proof.
  intros Hw Hdec. unfold generate_tail.
  erewrite bind_ok by (apply get_global_ok, Hw).
  erewrite bind_ok by (eapply getattr_ok; [apply Hw|reflexivity]).
  erewrite bind_ok by reflexivity.
  destruct r as [text|e].
  - erewrite bind_ok by (eapply call_decode; [apply Hw|exact Hdec]).
    reflexivity.
  - erewrite bind_raise by (eapply call_decode; [apply Hw|exact Hdec]).
    reflexivity.
Qed.
End Generate.


(** ** What holds throughout the life of a process *)

Section Throughout.
Context `{Transformers} `{Pydantic}.

#[export] Instance same_classes_preorder : PreOrder same_classes.
Proof.
  split.
  - intros w. split; [done|]. by apply Forall_Forall2_diag, Forall_true.
  - intros w1 w2 w3 [Hg12 Hh12] [Hg23 Hh23]. split; [congruence|].
    eapply Forall2_trans; [|exact Hh12|exact Hh23].
    intros o1 o2 o3. congruence.
Qed.

Lemma same_classes_log e : stable same_classes (log e).
Proof.
  intros w. split; [done|]. simpl.
  by apply Forall_Forall2_diag, Forall_true.
Qed.

Lemma same_classes_insert w a o o' name args kwargs :
  heap w !! a = Some o ->
  class_name o = class_name o' ->
  same_classes w (after_call w a o' name args kwargs).
Proof.
  intros Ha Hc. split; [done|]. simpl.
  rewrite <- (list_insert_id (heap w) a o Ha) at 1.
  apply Forall2_insert; [|done].
  by apply Forall_Forall2_diag, Forall_true.
Qed.

Lemma same_classes_call callee args kwargs :
  stable same_classes (call callee args kwargs).
Proof.
  intros w.
  unfold call, eval_, bind, deref, log, store, lift, ret, raise.
  destruct callee; simpl; try reflexivity;
    repeat (case_match; simplify_eq/=); try reflexivity;
    by eapply same_classes_insert.
Qed.

Lemma serving_same_classes w w' am m atok t :
  serving w am m atok t ->
  same_classes w w' ->
  exists m' t', serving w' am m' atok t'.
Proof.
  intros [Hgm Hm Hgt Ht] [Hg Hh].
  destruct (Forall2_lookup_l _ _ _ _ _ Hh Hm) as (om & Hom & Hcm).
  destruct (Forall2_lookup_l _ _ _ _ _ Hh Ht) as (ot & Hot & Hct).
  destruct om as [m'|?]; [|done]. destruct ot as [?|t']; [done|].
  exists m', t'. split; try done; by rewrite Hg.
Qed.

(** In a process of [main.py], before and after every request, [model]
    and [tokenizer] are bound to a model and a tokenizer on the heap. *)
Lemma serving_throughout w0 w1 rs :
  module_init main_py w0 = (Ok tt, w1) ->
  exists am m atok t, serving (serve_all main_py rs w1).2 am m atok t.
Proof.
  intros (t & m & ->)%module_init_ok.
  destruct (serving_same_classes _ (serve_all main_py rs (bound main_py w0 t m)).2
              _ _ _ _ (main_bound_serving w0 t m)) as (m' & t' & Hs).
  { apply (stable_serve_all same_classes _ (fun e _ => same_classes_log e)
             same_classes_call). }
  by exists (S (length (heap w0))), m', (length (heap w0)), t'.
Qed.

(** In a process of either module started on a heap whose models are in
    evaluation mode, with inference that is read-only, the models are in
    evaluation mode before and after every request. *)
Lemma eval_mode_throughout a w0 w1 rs :
  read_only_inference ->
  eval_mode w0 ->
  module_init a w0 = (Ok tt, w1) ->
  eval_mode (serve_all a rs w1).2.
Proof.
  intros Hro Hw0 (t & m & ->)%module_init_ok.
  pose proof (bound_eval_mode a w0 t m Hw0) as Hb.
  pose proof (stable_serve_all same_heap _ (fun e _ => same_heap_log e)
                (same_heap_call_ro Hro) a rs _ Hb) as Hh.
  unfold eval_mode. by rewrite Hh.
Qed.
End Throughout.

(** * The claims *)

Section Claims.
Context `{Transformers} `{Pydantic}.

Lemma jsonable_completion text :
  jsonable (VDict {[ "completion" := VStr text ]}) = true.
Proof. simpl. by rewrite map_fold_singleton. Qed.

Lemma GenRequest_validate_inr d req :
  Main.GenRequest_validate (VDict d) = inr req ->
  field_str d "prompt" None = inr (Main.prompt req)
  /\ field_int d "max_tokens" (Some 128) = inr (Main.max_tokens req)
  /\ field_float d "temperature" (Some 0.7%float)
     = inr (Main.temperature req).
Proof.
  unfold Main.GenRequest_validate.
  destruct (field_str d "prompt" None),
    (field_int d "max_tokens" (Some 128)),
    (field_float d "temperature" (Some 0.7%float));
    intros [= <-]; done.
Qed.

Lemma validated_prompt d req P :
  Main.GenRequest_validate (VDict d) = inr req ->
  d !! "prompt" = Some (VStr P) ->
  Main.prompt req = P.
Proof.
  intros (Hp & _ & _)%GenRequest_validate_inr HP.
  unfold field_str in Hp. rewrite HP in Hp. congruence.
Qed.

Lemma validated_defaults d req :
  Main.GenRequest_validate (VDict d) = inr req ->
  (d !! "max_tokens" = None -> Main.max_tokens req = 128)
  /\ (d !! "temperature" = None -> Main.temperature req = 0.7%float)
  /\ (forall n, d !! "max_tokens" = Some (VInt n) -> Main.max_tokens req = n)
  /\ (forall f, d !! "temperature" = Some (VFloat f) ->
       Main.temperature req = f).
Proof.
  intros (_ & Hn & Hf)%GenRequest_validate_inr.
  unfold field_int in Hn. unfold field_float in Hf.
  repeat split; intros * Hd; rewrite Hd in *; congruence.
Qed.

Lemma app_generate d req w :
  Main.GenRequest_validate (VDict d) = inr req ->
  Main.app (Post "/generate" (Some (VDict d))) w =
  match Main.generate req w with
  | (Ok v, w') =>
      if jsonable v then (Response 200 v, w')
      else (internal_server_error, w')
  | (Raise _, w') => (internal_server_error, w')
  end.
Proof. intros Hv. unfold Main.app, endpoint. by rewrite Hv. Qed.

(** What the handler of [/run] does in a process of [handler.py]: the
    name [model] is bound to the tuple that [load_model] returned, and a
    tuple has no attribute [generate]. *)
Lemma run_on_tuple input w l :
  globals w !! "model" = Some (VTuple l) ->
  Handler.run input w
  = (Raise (AttributeError "tuple" "generate"), entered w "run").
Proof.
  intros Hm. unfold Handler.run.
  erewrite bind_ok by reflexivity. fold (entered w "run").
  erewrite bind_ok by (by apply get_global_ok).
  by erewrite bind_raise by reflexivity.
Qed.

Lemma handler_serving_tuple w0 w1 rs :
  module_init handler_py w0 = (Ok tt, w1) ->
  exists l, globals (serve_all handler_py rs w1).2 !! "model"
            = Some (VTuple l).
Proof.
  intros (t & m & ->)%module_init_ok.
  rewrite (stable_serve_all same_globals _ (fun e _ => same_globals_log e)
             same_globals_call handler_py rs).
  eexists. apply lookup_insert_eq.
Qed.

(** C1 (the code departs from the claim).  In a process of [handler.py],
    whatever requests were served before, [POST /run] with a body whose
    [prompt] is a string is answered with status 500 and not with 200 and
    an [output]: the handler raises [AttributeError] on the tuple bound to
    [model]. *)
Theorem run_answers_server_error w0 w1 rs d P :
  module_init handler_py w0 = (Ok tt, w1) ->
  d !! "prompt" = Some (VStr P) ->
  (serve handler_py (Post "/run" (Some (VDict d)))
     (serve_all handler_py rs w1).2).1
  = Response 500 (VStr "Internal Server Error").
Proof.
  intros Hinit HP.
  destruct (handler_serving_tuple _ _ rs Hinit) as [l Hl].
  simpl. unfold Handler.app, endpoint, Handler.Input_validate, field_str.
  rewrite HP. cbn [str_eq]. simpl (Stdlib.Strings.String.eqb _ _).
  cbv beta iota. by erewrite run_on_tuple.
Qed.

(** C2.  In a serving process of [main.py], for a body that validates
    and whose [prompt] is the string [P]: when the tokenizer encodes [P],
    the model generates the sequences [seq :: rest] from the encoding and
    the sampling parameters, and the tokenizer decodes [seq], skipping
    special tokens, to [text], then [POST /generate] is answered with
    status 200 and the body [{"completion": text}]. *)
Theorem generate_returns_completion
    w am m atok t d req P inputs t1 seq rest m1 text t2 :
  serving w am m atok t ->
  d !! "prompt" = Some (VStr P) ->
  Main.GenRequest_validate (VDict d) = inr req ->
  tokenizer_call t [VStr P] tokenizer_kwargs = (Ok (VDict inputs), t1) ->
  inputs !! "max_new_tokens" = None ->
  inputs !! "temperature" = None ->
  model_generate m [] (generate_kwargs inputs req)
    = (Ok (VList (seq :: rest)), m1) ->
  tokenizer_decode t1 [seq] decode_kwargs = (Ok (VStr text), t2) ->
  (Main.app (Post "/generate" (Some (VDict d))) w).1
  = Response 200 (VDict {[ "completion" := VStr text ]}).
Proof.
  intros Hw HP Hv Htok Hn Ht Hgen Hdec.
  rewrite (app_generate _ _ _ Hv).
  rewrite <- (validated_prompt _ _ _ Hv HP) in Htok.
  erewrite generate_until_generated by eassumption. cbv beta iota.
  erewrite generate_tail_eq
    by (first [by eapply serving_generated | eassumption]).
  cbv beta iota. by rewrite jsonable_completion.
Qed.

(** C3.  In a serving process of [main.py], for a body that validates to
    [req] and a tokenizer that encodes the prompt: the third event of the
    request is the call of [model.generate], and its keyword arguments
    carry [max_new_tokens = req.max_tokens] and
    [temperature = req.temperature]; a body without [max_tokens] gives
    128, one without [temperature] gives 0.7, and an integer or a float
    supplied for them is the value forwarded. *)
Theorem generate_forwards_sampling_parameters
    w am m atok t d req inputs t1 :
  serving w am m atok t ->
  Main.GenRequest_validate (VDict d) = inr req ->
  tokenizer_call t [VStr (Main.prompt req)] tokenizer_kwargs
    = (Ok (VDict inputs), t1) ->
  inputs !! "max_new_tokens" = None ->
  inputs !! "temperature" = None ->
  (exists kwargs evs,
     trace (Main.app (Post "/generate" (Some (VDict d))) w).2
     = trace w ++
         [EnterFunction "generate";
          LibCall "__call__" (Some atok) [VStr (Main.prompt req)]
            tokenizer_kwargs;
          LibCall "generate" (Some am) [] kwargs] ++ evs
     /\ kwargs !! "max_new_tokens" = Some (VInt (Main.max_tokens req))
     /\ kwargs !! "temperature" = Some (VFloat (Main.temperature req)))
  /\ (d !! "max_tokens" = None -> Main.max_tokens req = 128)
  /\ (d !! "temperature" = None -> Main.temperature req = 0.7%float)
  /\ (forall n, d !! "max_tokens" = Some (VInt n) -> Main.max_tokens req = n)
  /\ (forall f, d !! "temperature" = Some (VFloat f) ->
       Main.temperature req = f).
Proof.
  intros Hw Hv Htok Hn Ht. split; [|by apply validated_defaults].
  exists (generate_kwargs inputs req).
  assert (exists evs,
    trace (Main.generate req w).2
    = trace (generated w am (model_generate m [] (generate_kwargs inputs req)).2
               atok t1 req inputs) ++ evs) as [evs Hevs].
  { destruct (model_generate m [] (generate_kwargs inputs req))
      as [r m1] eqn:Hgen.
    erewrite generate_until_generated by eassumption.
    destruct r as [outputs|e]; [|exists []; by rewrite app_nil_r].
    destruct (stable_generate_tail no_reload _ no_reload_call
                outputs (generated w am m1 atok t1 req inputs))
      as (evs & Hevs & _).
    by exists evs. }
  exists evs. split; [|split].
  - rewrite (app_generate _ _ _ Hv).
    destruct (Main.generate req w) as [[v|e] w']; simpl in Hevs |- *;
      [destruct (jsonable v)|]; simpl; rewrite Hevs;
      by rewrite <- !app_assoc.
  - apply lookup_insert_eq.
  - unfold generate_kwargs. by rewrite lookup_insert_ne, lookup_insert_eq.
Qed.

Lemma GenRequest_validate_missing v :
  lacks_prompt (Some v) ->
  exists es, Main.GenRequest_validate v = inl es.
Proof.
  destruct v; simpl; eauto. intros Hd.
  unfold Main.GenRequest_validate, field_str. rewrite Hd.
  destruct (field_int _ _ _), (field_float _ _ _); eauto.
Qed.

Lemma Input_validate_missing v :
  lacks_prompt (Some v) ->
  exists es, Handler.Input_validate v = inl es.
Proof.
  destruct v; simpl; eauto. intros Hd.
  unfold Handler.Input_validate, field_str. rewrite Hd. eauto.
Qed.

(** C4.  For both applications, a request on the application's route
    whose body lacks the field [prompt] is answered with status 422, and
    the world is what it was: the handler was not entered and no library
    call was made. *)
Theorem missing_prompt_is_unprocessable a body w :
  lacks_prompt body ->
  status (serve a (Post (route a) body) w).1 = 422
  /\ (serve a (Post (route a) body) w).2 = w.
Proof.
  intros Hb. destruct a; simpl; unfold Main.app, Handler.app, endpoint;
    cbn [route str_eq]; simpl (Stdlib.Strings.String.eqb _ _);
    (destruct body as [v|]; [|done]).
  - destruct (GenRequest_validate_missing v Hb) as [es ->]. done.
  - destruct (Input_validate_missing v Hb) as [es ->]. done.
Qed.

(** C5, amended.  When both [from_pretrained] calls succeed on
    [MODEL_NAME], [load_model] returns the pair (model, tokenizer), the
    model first: two references to fresh objects on the heap, the model
    in evaluation mode when [load_model] returns.  Nothing else changes,
    and the calls made are the two [from_pretrained] on [MODEL_NAME] and
    then [eval] on the model. *)
Theorem load_model_returns_model_then_tokenizer w t m :
  AutoTokenizer_from_pretrained [VStr ModelLoader.MODEL_NAME] ∅ = Ok t ->
  AutoModelForCausalLM_from_pretrained
    [VStr ModelLoader.MODEL_NAME] model_kwargs = Ok m ->
  exists am atok w',
    ModelLoader.load_model w = (Ok (VTuple [VRef am; VRef atok]), w')
    /\ heap w' !! am = Some (OModel (ModelState (params m) false))
    /\ heap w' !! atok = Some (OTokenizer t)
    /\ globals w' = globals w
    /\ heap w' = heap w ++
         [OTokenizer t; OModel (ModelState (params m) false)]
    /\ trace w' = trace w ++
         [EnterFunction "load_model";
          LibCall "AutoTokenizer.from_pretrained" None
            [VStr ModelLoader.MODEL_NAME] ∅;
          LibCall "AutoModelForCausalLM.from_pretrained" None
            [VStr ModelLoader.MODEL_NAME] model_kwargs;
          LibCall "eval" (Some am) [] ∅].
Proof.
  intros Ht Hm. rewrite load_model_eq, Ht, Hm.
  exists (S (length (heap w))), (length (heap w)), (loaded w t m).
  split; [done|]. simpl. repeat split.
  - rewrite lookup_app_r by lia.
    by replace (S (length (heap w)) - length (heap w))%nat with 1%nat by lia.
  - by rewrite lookup_app_r, Nat.sub_diag.
  - by rewrite <- !app_assoc.
Qed.

(** C6 (the code departs from the claim).  In a process of [handler.py],
    whatever requests were served before, the handler [run] raises
    [AttributeError] although no library call raised: between its entry
    and its exit the trace gains no library call and the heap is
    untouched. *)
Theorem run_raises_without_library_error w0 w1 rs input :
  module_init handler_py w0 = (Ok tt, w1) ->
  let w := (serve_all handler_py rs w1).2 in
  (Handler.run input w).1 = Raise (AttributeError "tuple" "generate")
  /\ trace (Handler.run input w).2 = trace w ++ [EnterFunction "run"]
  /\ heap (Handler.run input w).2 = heap w.
Proof.
  intros Hinit w.
  destruct (handler_serving_tuple _ _ rs Hinit) as [l Hl].
  by erewrite run_on_tuple.
Qed.

(** What does hold, of [/generate]: an exception raised by the
    tokenizer, by the model or by decoding leaves [generate] as it is. *)
Lemma generate_propagates w am m atok t req e :
  serving w am m atok t ->
  (forall t1,
     tokenizer_call t [VStr (Main.prompt req)] tokenizer_kwargs
       = (Raise e, t1) ->
     (Main.generate req w).1 = Raise e)
  /\ (forall inputs t1 m1,
       tokenizer_call t [VStr (Main.prompt req)] tokenizer_kwargs
         = (Ok (VDict inputs), t1) ->
       inputs !! "max_new_tokens" = None ->
       inputs !! "temperature" = None ->
       model_generate m [] (generate_kwargs inputs req) = (Raise e, m1) ->
       (Main.generate req w).1 = Raise e)
  /\ (forall inputs t1 m1 seq rest t2,
       tokenizer_call t [VStr (Main.prompt req)] tokenizer_kwargs
         = (Ok (VDict inputs), t1) ->
       inputs !! "max_new_tokens" = None ->
       inputs !! "temperature" = None ->
       model_generate m [] (generate_kwargs inputs req)
         = (Ok (VList (seq :: rest)), m1) ->
       tokenizer_decode t1 [seq] decode_kwargs = (Raise e, t2) ->
       (Main.generate req w).1 = Raise e).
Proof.
  intros Hw. repeat split.
  - intros t1 Htok.
    apply (serving_entered _ _ _ _ _ "generate") in Hw.
    unfold Main.generate.
    erewrite bind_ok by reflexivity. fold (entered w "generate").
    erewrite bind_ok by (apply get_global_ok, Hw).
    by erewrite bind_raise
      by (eapply call_tokenizer; [apply Hw|exact Htok]).
  - intros inputs t1 m1 Htok Hn Ht Hgen.
    by erewrite generate_until_generated by eassumption.
  - intros inputs t1 m1 seq rest t2 Htok Hn Ht Hgen Hdec.
    erewrite generate_until_generated by eassumption. cbv beta iota.
    by erewrite generate_tail_eq
      by (first [by eapply serving_generated | eassumption]).
Qed.

(** C7.  In a process of either module, whatever the requests: the trace
    of the process begins with the entry into [load_model] and holds no
    other entry into it, so [load_model] runs once, before any request;
    and when the top level succeeds, the names it bound are bound to the
    same values after the last request. *)
Theorem load_model_runs_once_before_serving a rs w0 :
  (exists evs,
     trace (process a rs w0).2
     = trace w0 ++ EnterFunction "load_model" :: evs
     /\ Forall (fun e => is_load_model e = false) evs)
  /\ (forall w1,
       module_init a w0 = (Ok tt, w1) ->
       globals (process a rs w0).2 = globals w1).
Proof.
  unfold process. split.
  - destruct (module_init_trace a w0) as (evs0 & Hevs0 & Hno0).
    destruct (module_init a w0) as [[[]|e] w1]; [|by exists evs0].
    destruct (stable_serve_all no_reload _ no_reload_log no_reload_call
                a rs w1) as (evs & Hevs & Hno).
    destruct (serve_all a rs w1) as [resps w2]. simpl in *.
    exists (evs0 ++ evs). split.
    + by rewrite Hevs, Hevs0, <- app_assoc.
    + by apply Forall_app.
  - intros w1 Hinit. rewrite Hinit.
    pose proof (stable_serve_all same_globals _
                  (fun e _ => same_globals_log e)
                  same_globals_call a rs w1) as Hg.
    by destruct (serve_all a rs w1).
Qed.

(** C8.  A request to either application leaves every name of the
    module bound to the value it had; and when inference leaves its
    receiver as it found it and the models on the heap are in evaluation
    mode, it leaves every object on the heap, the model's parameters
    among them, as it was. *)
Theorem request_leaves_shared_state_unchanged a r w :
  globals (serve a r w).2 = globals w
  /\ (read_only_inference -> eval_mode w ->
      heap (serve a r w).2 = heap w).
Proof.
  split.
  - apply (stable_serve same_globals _ (fun e _ => same_globals_log e)
             same_globals_call).
  - intros Hro Hw.
    by apply (stable_serve same_heap _ (fun e _ => same_heap_log e)
                (same_heap_call_ro Hro)).
Qed.

(** C9.  In a serving process of [main.py] whose model echoes its input
    when asked for no new token: for a body with the string [P] as
    [prompt] and 0 as [max_tokens], when the tokenizer encodes [P] to a
    batch whose first sequence is [seq] and decodes [seq] to [text], then
    [POST /generate] is answered with status 200 and the completion
    [text], the decoding of the encoding of [P]. *)
Theorem generate_zero_tokens_round_trip
    w am m atok t d req P inputs t1 seq rest text t2 :
  serving w am m atok t ->
  echoes_at_zero m ->
  d !! "prompt" = Some (VStr P) ->
  d !! "max_tokens" = Some (VInt 0) ->
  Main.GenRequest_validate (VDict d) = inr req ->
  tokenizer_call t [VStr P] tokenizer_kwargs = (Ok (VDict inputs), t1) ->
  inputs !! "max_new_tokens" = None ->
  inputs !! "temperature" = None ->
  inputs !! "input_ids" = Some (VList (seq :: rest)) ->
  tokenizer_decode t1 [seq] decode_kwargs = (Ok (VStr text), t2) ->
  (Main.app (Post "/generate" (Some (VDict d))) w).1
  = Response 200 (VDict {[ "completion" := VStr text ]}).
Proof.
  intros Hw Hecho HP Hz Hv Htok Hn Ht Hids Hdec.
  destruct (validated_defaults _ _ Hv) as (_ & _ & Hmax & _).
  specialize (Hmax _ Hz).
  destruct (model_generate m [] (generate_kwargs inputs req))
    as [r m1] eqn:Hgen.
  rewrite (app_generate _ _ _ Hv).
  rewrite <- (validated_prompt _ _ _ Hv HP) in Htok.
  assert (r = Ok (VList (seq :: rest))) as ->.
  { change r with (r, m1).1. rewrite <- Hgen.
    apply Hecho; unfold generate_kwargs.
    - by rewrite lookup_insert_eq, Hmax.
    - by rewrite !lookup_insert_ne. }
  erewrite generate_until_generated by eassumption. cbv beta iota.
  erewrite generate_tail_eq
    by (first [by eapply serving_generated | eassumption]).
  cbv beta iota. by rewrite jsonable_completion.
Qed.

(** C10.  Two serving processes of [main.py] whose models return, for
    the same request, outputs with the same first sequence [seq] and any
    other sequences after it, answer that request alike; and when [seq]
    decodes to [text] the answer is status 200 with the completion
    [text]. *)
Theorem generate_decodes_first_sequence_only
    w w' am m m' atok t d req inputs t1 seq rest rest' m1 m1' :
  serving w am m atok t ->
  serving w' am m' atok t ->
  Main.GenRequest_validate (VDict d) = inr req ->
  tokenizer_call t [VStr (Main.prompt req)] tokenizer_kwargs
    = (Ok (VDict inputs), t1) ->
  inputs !! "max_new_tokens" = None ->
  inputs !! "temperature" = None ->
  model_generate m [] (generate_kwargs inputs req)
    = (Ok (VList (seq :: rest)), m1) ->
  model_generate m' [] (generate_kwargs inputs req)
    = (Ok (VList (seq :: rest')), m1') ->
  (Main.app (Post "/generate" (Some (VDict d))) w).1
  = (Main.app (Post "/generate" (Some (VDict d))) w').1
  /\ (forall text t2,
       tokenizer_decode t1 [seq] decode_kwargs = (Ok (VStr text), t2) ->
       (Main.app (Post "/generate" (Some (VDict d))) w).1
       = Response 200 (VDict {[ "completion" := VStr text ]})).
Proof.
  intros Hw Hw' Hv Htok Hn Ht Hgen Hgen'. split.
  - rewrite !(app_generate _ _ _ Hv).
    destruct (tokenizer_decode t1 [seq] decode_kwargs) as [r t2] eqn:Hdec.
    erewrite !generate_until_generated by eassumption. cbv beta iota.
    erewrite !generate_tail_eq
      by (first [by eapply serving_generated | eassumption]).
    destruct r as [text|e]; [|done]. by destruct (jsonable _).
  - intros text t2 Hdec.
    rewrite (app_generate _ _ _ Hv).
    erewrite generate_until_generated by eassumption. cbv beta iota.
    erewrite generate_tail_eq
      by (first [by eapply serving_generated | eassumption]).
    cbv beta iota. by rewrite jsonable_completion.
Qed.
End Claims.

(** * The program run on the stub library *)

Section OnTheStub.
Import Stub.

Lemma stub_read_only : read_only_inference.
Proof.
  repeat split; intros; simpl; repeat case_match; reflexivity.
Qed.

Lemma stub_started_serving k :
  serving (started k) 1%nat (ModelState k false) 0%nat tt.
Proof. by split. Qed.

Lemma stub_started_eval_mode k : eval_mode (started k).
Proof. intros [|[|a]] m; simpl; intros [=]; by subst. Qed.

Lemma stub_echoes m : echoes_at_zero m.
Proof. intros args kwargs ids Hn Hi. simpl. by rewrite Hn, Hi. Qed.

(** On the stub, [/generate] on [{"prompt": "hi", "max_tokens": 3}]. *)
Lemma generate_returns_completion_witness :
  (Main.app (Post "/generate" (Some (VDict hi3))) (started 0)).1
  = Response 200 (VDict {[ "completion" := VStr "hi!!!" ]}).
Proof.
  eapply (generate_returns_completion _ _ _ _ _ hi3 _ "hi").
  - apply stub_started_serving.
  - reflexivity.
  - vm_compute. reflexivity.
  - vm_compute. reflexivity.
  - reflexivity.
  - reflexivity.
  - vm_compute. reflexivity.
  - vm_compute. reflexivity.
Defined.

(** On the stub, the first request of a [handler.py] process. *)
Lemma run_answers_server_error_witness :
  (serve handler_py (Post "/run" (Some (VDict hi)))
     (serve_all handler_py [] (module_init handler_py fresh).2).2).1
  = Response 500 (VStr "Internal Server Error").
Proof.
  apply (run_answers_server_error fresh _ [] hi "hi"); reflexivity.
Defined.

(** On the stub, a body with the prompt alone: the defaults reach
    [model.generate]. *)
Lemma generate_forwards_sampling_parameters_witness :
  exists kwargs evs,
    trace (Main.app (Post "/generate" (Some (VDict hi))) (started 0)).2
    = [EnterFunction "generate";
       LibCall "__call__" (Some 0%nat) [VStr "hi"] tokenizer_kwargs;
       LibCall "generate" (Some 1%nat) [] kwargs] ++ evs
    /\ kwargs !! "max_new_tokens" = Some (VInt 128)
    /\ kwargs !! "temperature" = Some (VFloat 0.7).
Proof.
  assert (Main.GenRequest_validate (VDict hi)
          = inr {| Main.prompt := "hi"; Main.max_tokens := 128;
                   Main.temperature := 0.7 |}) as Hv
    by (vm_compute; reflexivity).
  destruct (generate_forwards_sampling_parameters
              (started 0) 1%nat (ModelState 0%nat false) 0%nat tt hi _
              (<["input_ids" := VList [VList (encode "hi")]]>
                 {[ "attention_mask" :=
                      VList [VList ((fun _ => VInt 1) <$> encode "hi")] ]})
              tt (stub_started_serving 0) Hv)
    as [Hcall _]; [reflexivity..|].
  exact Hcall.
Defined.

(** On the stub, a body with [max_tokens] and no [prompt]. *)
Lemma missing_prompt_is_unprocessable_witness :
  status (serve main_py (Post "/generate"
            (Some (VDict {[ "max_tokens" := VInt 3 ]}))) (started 0)).1 = 422
  /\ (serve main_py (Post "/generate"
        (Some (VDict {[ "max_tokens" := VInt 3 ]}))) (started 0)).2
     = started 0.
Proof.
  apply (missing_prompt_is_unprocessable main_py
           (Some (VDict {[ "max_tokens" := VInt 3 ]})) (started 0)).
  reflexivity.
Defined.

(** On the stub, [load_model] does not return the tokenizer first: the
    first component of its pair is the model. *)
Lemma load_model_returns_tokenizer_then_model_fails :
  ~ returns_tokenizer_then_model fresh.
Proof.
  intros (atok & am & t & m & w' & Hload & Ht & Hm & _).
  rewrite load_model_eq in Hload. simpl in Hload.
  injection Hload as <- <- <-. simpl in Ht. discriminate Ht.
Qed.

(** On the stub, [load_model] from the empty world. *)
Lemma load_model_returns_model_then_tokenizer_witness :
  exists am atok w',
    ModelLoader.load_model fresh = (Ok (VTuple [VRef am; VRef atok]), w')
    /\ heap w' !! am = Some (OModel (ModelState 0%nat false))
    /\ heap w' !! atok = Some (OTokenizer tt)
    /\ globals w' = globals fresh
    /\ heap w' = heap fresh ++
         [OTokenizer tt; OModel (ModelState 0%nat false)]
    /\ trace w' = trace fresh ++
         [EnterFunction "load_model";
          LibCall "AutoTokenizer.from_pretrained" None
            [VStr ModelLoader.MODEL_NAME] ∅;
          LibCall "AutoModelForCausalLM.from_pretrained" None
            [VStr ModelLoader.MODEL_NAME] model_kwargs;
          LibCall "eval" (Some am) [] ∅].
Proof.
  apply (load_model_returns_model_then_tokenizer fresh tt
           (ModelState 0%nat true)); reflexivity.
Defined.

(** On the stub, [run] in a [handler.py] process that just started. *)
Lemma run_raises_without_library_error_witness :
  let w := (serve_all handler_py [] (module_init handler_py fresh).2).2 in
  (Handler.run {| Handler.prompt := "hi" |} w).1
  = Raise (AttributeError "tuple" "generate")
  /\ trace (Handler.run {| Handler.prompt := "hi" |} w).2
     = trace w ++ [EnterFunction "run"]
  /\ heap (Handler.run {| Handler.prompt := "hi" |} w).2 = heap w.
Proof.
  apply (run_raises_without_library_error fresh _ []
           {| Handler.prompt := "hi" |}).
  reflexivity.
Defined.

(** On the stub, a [main.py] process that serves one request. *)
Lemma load_model_runs_once_before_serving_witness :
  (exists evs,
     trace (process main_py [Post "/generate" (Some (VDict hi3))] fresh).2
     = trace fresh ++ EnterFunction "load_model" :: evs
     /\ Forall (fun e => is_load_model e = false) evs)
  /\ globals (process main_py [Post "/generate" (Some (VDict hi3))] fresh).2
     = globals (module_init main_py fresh).2.
Proof.
  destruct (load_model_runs_once_before_serving main_py
              [Post "/generate" (Some (VDict hi3))] fresh) as [Honce Hsame].
  split; [exact Honce|]. apply Hsame. reflexivity.
Defined.

(** On the stub, whose inference is read-only, a request that runs all
    three library calls. *)
Lemma request_leaves_shared_state_unchanged_witness :
  globals (serve main_py (Post "/generate" (Some (VDict hi3))) (started 0)).2
  = globals (started 0)
  /\ heap (serve main_py (Post "/generate" (Some (VDict hi3))) (started 0)).2
     = heap (started 0).
Proof.
  destruct (request_leaves_shared_state_unchanged main_py
              (Post "/generate" (Some (VDict hi3))) (started 0))
    as [Hglobals Hheap].
  split; [exact Hglobals|].
  apply Hheap; [exact stub_read_only | exact (stub_started_eval_mode 0)].
Defined.

(** On the stub, whose model echoes at zero, [max_tokens = 0]. *)
Lemma generate_zero_tokens_round_trip_witness :
  (Main.app (Post "/generate" (Some (VDict hi0))) (started 0)).1
  = Response 200 (VDict {[ "completion" := VStr "hi" ]}).
Proof.
  eapply (generate_zero_tokens_round_trip _ _ _ _ _ hi0 _ "hi").
  - apply stub_started_serving.
  - apply stub_echoes.
  - reflexivity.
  - reflexivity.
  - vm_compute. reflexivity.
  - vm_compute. reflexivity.
  - reflexivity.
  - reflexivity.
  - reflexivity.
  - vm_compute. reflexivity.
Defined.

(** On the stub, a model that returns one sequence and a model that
    returns two more. *)
Lemma generate_decodes_first_sequence_only_witness :
  (Main.app (Post "/generate" (Some (VDict hi3))) (started 0)).1
  = (Main.app (Post "/generate" (Some (VDict hi3))) (started 2)).1
  /\ (Main.app (Post "/generate" (Some (VDict hi3))) (started 0)).1
     = Response 200 (VDict {[ "completion" := VStr "hi!!!" ]}).
Proof.
  edestruct (generate_decodes_first_sequence_only
               (started 0) (started 2) 1%nat (ModelState 0%nat false)
               (ModelState 2%nat false) 0%nat tt hi3)
    as [Hsame Hfirst].
  - apply stub_started_serving.
  - apply stub_started_serving.
  - vm_compute. reflexivity.
  - vm_compute. reflexivity.
  - reflexivity.
  - reflexivity.
  - vm_compute. reflexivity.
  - vm_compute. reflexivity.
  - split; [exact Hsame|]. eapply Hfirst. vm_compute. reflexivity.
Defined.
End OnTheStub.


(** * More of the code: loading and startup *)

Section Startup.
Context `{Transformers} `{Pydantic}.

(** X1.  When the tokenizer cannot be loaded, [load_model] raises that
    very error and stops there: the weights are not asked for, nothing
    is allocated and no name is bound. *)
Theorem load_model_stops_at_tokenizer_failure w e :
  AutoTokenizer_from_pretrained [VStr ModelLoader.MODEL_NAME] ∅ = Raise e ->
  (ModelLoader.load_model w).1 = Raise e
  /\ globals (ModelLoader.load_model w).2 = globals w
  /\ heap (ModelLoader.load_model w).2 = heap w
  /\ trace (ModelLoader.load_model w).2 = trace w ++
       [EnterFunction "load_model";
        LibCall "AutoTokenizer.from_pretrained" None
          [VStr ModelLoader.MODEL_NAME] ∅].
Proof. intros He. by rewrite load_model_eq, He. Qed.

(** X2.  When the tokenizer loads and the weights do not, [load_model]
    raises the error of the weights: the tokenizer it loaded stays on the
    heap, unreturned, and [eval] is not called. *)
Theorem load_model_stops_at_model_failure w t e :
  AutoTokenizer_from_pretrained [VStr ModelLoader.MODEL_NAME] ∅ = Ok t ->
  AutoModelForCausalLM_from_pretrained
    [VStr ModelLoader.MODEL_NAME] model_kwargs = Raise e ->
  (ModelLoader.load_model w).1 = Raise e
  /\ globals (ModelLoader.load_model w).2 = globals w
  /\ heap (ModelLoader.load_model w).2 = heap w ++ [OTokenizer t]
  /\ trace (ModelLoader.load_model w).2 = trace w ++
       [EnterFunction "load_model";
        LibCall "AutoTokenizer.from_pretrained" None
          [VStr ModelLoader.MODEL_NAME] ∅;
        LibCall "AutoModelForCausalLM.from_pretrained" None
          [VStr ModelLoader.MODEL_NAME] model_kwargs].
Proof.
  intros Ht He. rewrite load_model_eq, Ht, He. simpl.
  repeat split. by rewrite <- app_assoc.
Qed.

(** X3.  When [load_model] raises, the top level of either module raises
    the same error without binding any name, and the process ends there:
    it answers no request, and its last world is the one in which
    [load_model] failed. *)
Theorem failed_load_ends_the_process a rs w0 e :
  (ModelLoader.load_model w0).1 = Raise e ->
  (module_init a w0).1 = Raise e
  /\ globals (module_init a w0).2 = globals w0
  /\ process a rs w0 = (None, (ModelLoader.load_model w0).2).
Proof.
  unfold process. rewrite module_init_eq, load_model_eq.
  destruct (AutoTokenizer_from_pretrained _ _) as [t|e1]; [|by intros [= ->]].
  destruct (AutoModelForCausalLM_from_pretrained _ _) as [m|e2];
    [done | by intros [= ->]].
Qed.

(** X4.  [load_model] keeps nothing of an earlier call: called twice
    with a library that loads, it loads twice and returns two pairs of
    four distinct objects, all new to the heap. *)
Theorem load_model_loads_again w t m :
  AutoTokenizer_from_pretrained [VStr ModelLoader.MODEL_NAME] ∅ = Ok t ->
  AutoModelForCausalLM_from_pretrained
    [VStr ModelLoader.MODEL_NAME] model_kwargs = Ok m ->
  let n := length (heap w) in
  (load_twice w).1
  = Ok (VTuple [VRef (S n); VRef n],
        VTuple [VRef (S (S (S n))); VRef (S (S n))])
  /\ heap (load_twice w).2
     = heap w ++ [OTokenizer t; OModel (ModelState (params m) false);
                  OTokenizer t; OModel (ModelState (params m) false)]
  /\ length (filter is_load_model (trace (load_twice w).2))
     = (length (filter is_load_model (trace w)) + 2)%nat.
Proof.
  intros Ht Hm n. unfold load_twice, bind.
  rewrite (load_model_eq w), Ht, Hm.
  rewrite (load_model_eq (loaded w t m)), Ht, Hm. simpl.
  rewrite length_app. simpl. subst n.
  replace (length (heap w) + 2)%nat with (S (S (length (heap w)))) by lia.
  repeat split.
  - by rewrite <- app_assoc.
  - rewrite <- !app_assoc. rewrite filter_app, length_app. simpl.
    by rewrite Nat.add_comm.
Qed.

(** X5.  Once the top level of [main.py] has run, [model] names a model
    in evaluation mode and [tokenizer] a tokenizer, two objects that were
    not on the heap before; every other name is bound as it was. *)
Theorem main_binds_model_and_tokenizer w0 w1 :
  module_init main_py w0 = (Ok tt, w1) ->
  exists am m atok t,
    serving w1 am m atok t
    /\ training m = false
    /\ heap w0 !! am = None
    /\ heap w0 !! atok = None
    /\ forall name, name <> "model" -> name <> "tokenizer" ->
         globals w1 !! name = globals w0 !! name.
Proof.
  intros (t & m & ->)%module_init_ok.
  exists (S (length (heap w0))), (ModelState (params m) false),
    (length (heap w0)), t.
  split; [apply main_bound_serving|]. split; [done|].
  split; [apply lookup_ge_None_2; lia|].
  split; [apply lookup_ge_None_2; lia|].
  intros name Hm Ht. simpl. by rewrite !lookup_insert_ne.
Qed.
End Startup.

(** * More of the code: the steps of [generate] *)

Section Pipeline.
Context `{Transformers} `{Pydantic}.

Lemma app_generate_world d req w :
  Main.GenRequest_validate (VDict d) = inr req ->
  (Main.app (Post "/generate" (Some (VDict d))) w).2
  = (Main.generate req w).2.
Proof.
  intros Hv. rewrite (app_generate _ _ _ Hv).
  destruct (Main.generate req w) as [[v|e] w']; [|done].
  by destruct (jsonable v).
Qed.

Lemma app_generate_raise d req w e :
  Main.GenRequest_validate (VDict d) = inr req ->
  (Main.generate req w).1 = Raise e ->
  (Main.app (Post "/generate" (Some (VDict d))) w).1
  = Response 500 (VStr "Internal Server Error").
Proof.
  intros Hv. rewrite (app_generate _ _ _ Hv).
  destruct (Main.generate req w) as [[v|e'] w']; [done|]. by intros _.
Qed.

(** What follows a step leaves the trace of that step in place. *)
Lemma bind_extends_trace {A B} (c : M A) (k : A -> M B) w :
  (forall a, stable no_reload (k a)) ->
  exists evs, trace (bind c k w).2 = trace (c w).2 ++ evs.
Proof.
  intros Hk. unfold bind. destruct (c w) as [[a|e] w1]; simpl.
  - destruct (Hk a w1) as (evs & Hevs & _). by exists evs.
  - exists []. by rewrite app_nil_r.
Qed.

Ltac stable_no_reload :=
  repeat (apply (stable_bind no_reload _); [|intros ?]);
  first [ apply (stable_get_global no_reload _)
        | apply (stable_getattr no_reload _)
        | apply (stable_getitem no_reload _)
        | apply (stable_star_kwargs no_reload _)
        | apply (stable_ret no_reload _)
        | apply no_reload_call ].

(** The first call of [generate] is the tokenizer's, whatever comes of
    it. *)
Lemma generate_calls_tokenizer w am m atok t req :
  serving w am m atok t ->
  exists evs,
    trace (Main.generate req w).2
    = trace w ++
        [EnterFunction "generate";
         LibCall "__call__" (Some atok) [VStr (Main.prompt req)]
           tokenizer_kwargs] ++ evs.
Proof.
  intros Hw. apply (serving_entered _ _ _ _ _ "generate") in Hw.
  destruct (tokenizer_call t [VStr (Main.prompt req)] tokenizer_kwargs)
    as [r t1] eqn:Htok.
  unfold Main.generate.
  erewrite bind_ok by reflexivity. fold (entered w "generate").
  erewrite bind_ok by (apply get_global_ok, Hw).
  match goal with
  | |- context [bind ?c ?k ?w'] =>
      destruct (bind_extends_trace c k w') as [evs Hevs];
      [intros inputs; stable_no_reload | rewrite Hevs]
  end.
  erewrite call_tokenizer by (first [apply Hw | exact Htok]).
  exists evs. simpl. by rewrite <- !app_assoc.
Qed.

(** X6.  In a process of [main.py], whatever requests were served
    before and whatever the library does, a request on [/generate] that
    validates enters [generate] and calls the tokenizer, a tokenizer on
    the heap, on the prompt of the request with [return_tensors="pt"],
    before anything else. *)
Theorem valid_request_reaches_tokenizer w0 w1 rs d req :
  module_init main_py w0 = (Ok tt, w1) ->
  Main.GenRequest_validate (VDict d) = inr req ->
  let w := (serve_all main_py rs w1).2 in
  exists atok t evs,
    heap w !! atok = Some (OTokenizer t)
    /\ trace (serve main_py (Post "/generate" (Some (VDict d))) w).2
       = trace w ++
           [EnterFunction "generate";
            LibCall "__call__" (Some atok) [VStr (Main.prompt req)]
              tokenizer_kwargs] ++ evs.
Proof.
  intros Hinit Hv w.
  destruct (serving_throughout _ _ rs Hinit) as (am & m & atok & t & Hw).
  destruct (generate_calls_tokenizer _ _ _ _ _ req Hw) as [evs Hevs].
  exists atok, t, evs. split; [apply Hw|].
  unfold serve. by rewrite (app_generate_world _ _ _ Hv).
Qed.

(** X7.  A request that runs to its end makes three library calls and
    no other: the tokenizer on the prompt, [model.generate] on the
    encoding and the sampling parameters with no positional argument,
    and [tokenizer.decode] on the first output sequence with
    [skip_special_tokens=True]; it binds no name and writes to the two
    objects it called and to nothing else. *)
Theorem generate_makes_three_calls
    w am m atok t req inputs t1 seq rest m1 text t2 :
  serving w am m atok t ->
  tokenizer_call t [VStr (Main.prompt req)] tokenizer_kwargs
    = (Ok (VDict inputs), t1) ->
  inputs !! "max_new_tokens" = None ->
  inputs !! "temperature" = None ->
  model_generate m [] (generate_kwargs inputs req)
    = (Ok (VList (seq :: rest)), m1) ->
  tokenizer_decode t1 [seq] decode_kwargs = (Ok text, t2) ->
  (Main.generate req w).1 = Ok (VDict {[ "completion" := text ]})
  /\ trace (Main.generate req w).2
     = trace w ++
         [EnterFunction "generate";
          LibCall "__call__" (Some atok) [VStr (Main.prompt req)]
            {[ "return_tensors" := VStr "pt" ]};
          LibCall "generate" (Some am) []
            (<["max_new_tokens" := VInt (Main.max_tokens req)]>
               (<["temperature" := VFloat (Main.temperature req)]> inputs));
          LibCall "decode" (Some atok) [seq]
            {[ "skip_special_tokens" := VBool true ]}]
  /\ globals (Main.generate req w).2 = globals w
  /\ heap (Main.generate req w).2
     = <[atok := OTokenizer t2]>
         (<[am := OModel m1]> (<[atok := OTokenizer t1]> (heap w))).
Proof.
  intros Hw Htok Hn Ht Hgen Hdec.
  erewrite generate_until_generated by eassumption. cbv beta iota.
  erewrite generate_tail_eq
    by (first [by eapply serving_generated | eassumption]).
  repeat split. simpl. by rewrite <- !app_assoc.
Qed.

Lemma generate_calls_model w am m atok t req inputs t1 :
  serving w am m atok t ->
  tokenizer_call t [VStr (Main.prompt req)] tokenizer_kwargs
    = (Ok (VDict inputs), t1) ->
  inputs !! "max_new_tokens" = None ->
  inputs !! "temperature" = None ->
  exists evs,
    trace (Main.generate req w).2
    = trace w ++
        [EnterFunction "generate";
         LibCall "__call__" (Some atok) [VStr (Main.prompt req)]
           tokenizer_kwargs;
         LibCall "generate" (Some am) [] (generate_kwargs inputs req)]
        ++ evs.
Proof.
  intros Hw Htok Hn Ht.
  destruct (model_generate m [] (generate_kwargs inputs req))
    as [r m1] eqn:Hgen.
  erewrite generate_until_generated by eassumption.
  destruct r as [outputs|e].
  - destruct (stable_generate_tail no_reload _ no_reload_call
                outputs (generated w am m1 atok t1 req inputs))
      as (evs & Hevs & _).
    exists evs. rewrite Hevs. simpl. by rewrite <- !app_assoc.
  - exists []. simpl. by rewrite <- !app_assoc.
Qed.

(** X8.  The encoding reaches the model whole: the keyword arguments of
    [model.generate] hold every entry of the mapping the tokenizer
    returned, and besides them [max_new_tokens] and [temperature] and
    nothing more. *)
Theorem generate_forwards_encoding w am m atok t req inputs t1 :
  serving w am m atok t ->
  tokenizer_call t [VStr (Main.prompt req)] tokenizer_kwargs
    = (Ok (VDict inputs), t1) ->
  inputs !! "max_new_tokens" = None ->
  inputs !! "temperature" = None ->
  exists kwargs evs,
    trace (Main.generate req w).2
    = trace w ++
        [EnterFunction "generate";
         LibCall "__call__" (Some atok) [VStr (Main.prompt req)]
           tokenizer_kwargs;
         LibCall "generate" (Some am) [] kwargs] ++ evs
    /\ (forall k v, inputs !! k = Some v -> kwargs !! k = Some v)
    /\ dom kwargs = {[ "max_new_tokens"; "temperature" ]} ∪ dom inputs.
Proof.
  intros Hw Htok Hn Ht.
  destruct (generate_calls_model _ _ _ _ _ req _ _ Hw Htok Hn Ht)
    as [evs Hevs].
  exists (generate_kwargs inputs req), evs. split; [done|].
  unfold generate_kwargs. split.
  - intros k v Hk.
    rewrite !lookup_insert_ne; [done|congruence|congruence].
  - by rewrite !dom_insert_L, (assoc_L (∪)).
Qed.

(** X9.  An encoding that already holds [max_new_tokens] or
    [temperature] collides with the keywords [generate] adds: the
    request ends in a [TypeError] and status 500, and [model.generate]
    is not called. *)
Theorem generate_refuses_duplicate_keyword w am m atok t d req inputs t1 :
  serving w am m atok t ->
  Main.GenRequest_validate (VDict d) = inr req ->
  tokenizer_call t [VStr (Main.prompt req)] tokenizer_kwargs
    = (Ok (VDict inputs), t1) ->
  is_Some (inputs !! "max_new_tokens") \/ is_Some (inputs !! "temperature") ->
  (Main.generate req w).1
  = Raise (TypeError "got multiple values for keyword argument")
  /\ (Main.app (Post "/generate" (Some (VDict d))) w).1
     = Response 500 (VStr "Internal Server Error")
  /\ trace (Main.app (Post "/generate" (Some (VDict d))) w).2
     = trace w ++
         [EnterFunction "generate";
          LibCall "__call__" (Some atok) [VStr (Main.prompt req)]
            tokenizer_kwargs].
Proof.
  intros Hw Hv Htok Hdup.
  assert (Main.generate req w
          = (Raise (TypeError "got multiple values for keyword argument"),
             after_call (entered w "generate") atok (OTokenizer t1)
               "__call__" [VStr (Main.prompt req)] tokenizer_kwargs))
    as Hgen.
  { apply (serving_entered _ _ _ _ _ "generate") in Hw.
    unfold Main.generate.
    erewrite bind_ok by reflexivity. fold (entered w "generate").
    erewrite bind_ok by (apply get_global_ok, Hw).
    erewrite bind_ok by (eapply call_tokenizer; [apply Hw|exact Htok]).
    eapply serving_tokenizer_call in Hw.
    erewrite bind_ok by (apply get_global_ok, Hw).
    erewrite bind_ok by (eapply getattr_ok; [apply Hw|reflexivity]).
    erewrite bind_raise; [reflexivity|].
    unfold star_kwargs. simpl.
    destruct Hdup as [[v Hd]|[v Hd]]; rewrite Hd.
    - by rewrite bool_decide_eq_false_2.
    - rewrite (bool_decide_eq_false_2 (Some v = None)) by done.
      by rewrite andb_false_r. }
  split; [by rewrite Hgen|]. split.
  - eapply app_generate_raise; [done|]. by rewrite Hgen.
  - rewrite (app_generate_world _ _ _ Hv), Hgen. simpl.
    by rewrite <- app_assoc.
Qed.

(** X10.  When the model returns an empty batch, [outputs[0]] raises
    [IndexError]: the request is answered with status 500 and
    [tokenizer.decode] is not called. *)
Theorem generate_empty_batch_is_index_error
    w am m atok t d req inputs t1 m1 :
  serving w am m atok t ->
  Main.GenRequest_validate (VDict d) = inr req ->
  tokenizer_call t [VStr (Main.prompt req)] tokenizer_kwargs
    = (Ok (VDict inputs), t1) ->
  inputs !! "max_new_tokens" = None ->
  inputs !! "temperature" = None ->
  model_generate m [] (generate_kwargs inputs req) = (Ok (VList []), m1) ->
  (Main.generate req w).1 = Raise (IndexError "index out of range")
  /\ (Main.app (Post "/generate" (Some (VDict d))) w).1
     = Response 500 (VStr "Internal Server Error")
  /\ trace (Main.app (Post "/generate" (Some (VDict d))) w).2
     = trace w ++
         [EnterFunction "generate";
          LibCall "__call__" (Some atok) [VStr (Main.prompt req)]
            tokenizer_kwargs;
          LibCall "generate" (Some am) [] (generate_kwargs inputs req)].
Proof.
  intros Hw Hv Htok Hn Ht Hgen.
  assert (Main.generate req w
          = (Raise (IndexError "index out of range"),
             generated w am m1 atok t1 req inputs)) as Hrun.
  { erewrite generate_until_generated by eassumption. cbv beta iota.
    eapply serving_generated in Hw.
    unfold generate_tail.
    erewrite bind_ok by (apply get_global_ok, Hw).
    erewrite bind_ok by (eapply getattr_ok; [apply Hw|reflexivity]).
    by erewrite bind_raise by reflexivity. }
  split; [by rewrite Hrun|]. split.
  - eapply app_generate_raise; [done|]. by rewrite Hrun.
  - rewrite (app_generate_world _ _ _ Hv), Hrun. simpl.
    by rewrite <- !app_assoc.
Qed.

(** X11.  When the tokenizer raises, the request is answered with
    status 500 and [model.generate] is not called. *)
Theorem tokenizer_failure_skips_the_model w am m atok t d req e t1 :
  serving w am m atok t ->
  Main.GenRequest_validate (VDict d) = inr req ->
  tokenizer_call t [VStr (Main.prompt req)] tokenizer_kwargs
    = (Raise e, t1) ->
  (Main.generate req w).1 = Raise e
  /\ (Main.app (Post "/generate" (Some (VDict d))) w).1
     = Response 500 (VStr "Internal Server Error")
  /\ trace (Main.app (Post "/generate" (Some (VDict d))) w).2
     = trace w ++
         [EnterFunction "generate";
          LibCall "__call__" (Some atok) [VStr (Main.prompt req)]
            tokenizer_kwargs].
Proof.
  intros Hw Hv Htok.
  assert (Main.generate req w
          = (Raise e,
             after_call (entered w "generate") atok (OTokenizer t1)
               "__call__" [VStr (Main.prompt req)] tokenizer_kwargs))
    as Hrun.
  { apply (serving_entered _ _ _ _ _ "generate") in Hw.
    unfold Main.generate.
    erewrite bind_ok by reflexivity. fold (entered w "generate").
    erewrite bind_ok by (apply get_global_ok, Hw).
    by erewrite bind_raise
      by (eapply call_tokenizer; [apply Hw|exact Htok]). }
  split; [by rewrite Hrun|]. split.
  - eapply app_generate_raise; [done|]. by rewrite Hrun.
  - rewrite (app_generate_world _ _ _ Hv), Hrun. simpl.
    by rewrite <- app_assoc.
Qed.

(** X12.  When [model.generate] raises, the request is answered with
    status 500 and [tokenizer.decode] is not called. *)
Theorem model_failure_skips_decoding w am m atok t d req inputs t1 e m1 :
  serving w am m atok t ->
  Main.GenRequest_validate (VDict d) = inr req ->
  tokenizer_call t [VStr (Main.prompt req)] tokenizer_kwargs
    = (Ok (VDict inputs), t1) ->
  inputs !! "max_new_tokens" = None ->
  inputs !! "temperature" = None ->
  model_generate m [] (generate_kwargs inputs req) = (Raise e, m1) ->
  (Main.generate req w).1 = Raise e
  /\ (Main.app (Post "/generate" (Some (VDict d))) w).1
     = Response 500 (VStr "Internal Server Error")
  /\ trace (Main.app (Post "/generate" (Some (VDict d))) w).2
     = trace w ++
         [EnterFunction "generate";
          LibCall "__call__" (Some atok) [VStr (Main.prompt req)]
            tokenizer_kwargs;
          LibCall "generate" (Some am) [] (generate_kwargs inputs req)].
Proof.
  intros Hw Hv Htok Hn Ht Hgen.
  assert (Main.generate req w
          = (Raise e, generated w am m1 atok t1 req inputs)) as Hrun
    by (by erewrite generate_until_generated by eassumption).
  split; [by rewrite Hrun|]. split.
  - eapply app_generate_raise; [done|]. by rewrite Hrun.
  - rewrite (app_generate_world _ _ _ Hv), Hrun. simpl.
    by rewrite <- !app_assoc.
Qed.
End Pipeline.

(** * More of the code: requests one after the other *)

Section History.
Context `{Transformers} `{Pydantic}.

Lemma oblivious_ret {A} (a : A) : oblivious (ret a).
Proof. by intros w1 w2 Hs. Qed.

Lemma oblivious_raise {A} (e : exn) : oblivious (raise (A := A) e).
Proof. by intros w1 w2 Hs. Qed.

Lemma oblivious_lift {A} (r : result A) : oblivious (lift r).
Proof. by intros w1 w2 Hs. Qed.

Lemma oblivious_log e : oblivious (log e).
Proof. by intros w1 w2 [Hg Hh]. Qed.

Lemma oblivious_get_global name : oblivious (get_global name).
Proof.
  intros w1 w2 [Hg Hh]. unfold get_global. rewrite Hg.
  by destruct (globals w2 !! name).
Qed.

Lemma oblivious_deref a : oblivious (deref a).
Proof.
  intros w1 w2 [Hg Hh]. unfold deref. rewrite Hh.
  by destruct (heap w2 !! a).
Qed.

Lemma oblivious_store a o : oblivious (store a o).
Proof.
  intros w1 w2 [Hg Hh]. unfold store, same_store. simpl. by rewrite Hh.
Qed.

Lemma oblivious_bind {A B} (c : M A) (k : A -> M B) :
  oblivious c -> (forall a, oblivious (k a)) -> oblivious (bind c k).
Proof.
  intros Hc Hk w1 w2 Hs. unfold bind.
  destruct (Hc w1 w2 Hs) as [Hr Hs'].
  destruct (c w1) as [r1 w1'], (c w2) as [r2 w2']. simpl in *. subst r2.
  destruct r1 as [a|e]; [by apply Hk | done].
Qed.

Ltac oblivious_steps :=
  repeat first
    [ apply oblivious_bind; [|intros ?]
    | apply oblivious_ret | apply oblivious_raise | apply oblivious_lift
    | apply oblivious_log | apply oblivious_get_global
    | apply oblivious_deref | apply oblivious_store
    | progress case_match ].

Lemma oblivious_getattr recv name : oblivious (getattr recv name).
Proof. unfold getattr. oblivious_steps. Qed.

Lemma oblivious_call callee args kwargs :
  oblivious (call callee args kwargs).
Proof. unfold call, eval_. oblivious_steps. Qed.

Lemma oblivious_getitem v i : oblivious (getitem v i).
Proof. unfold getitem. oblivious_steps. Qed.

Lemma oblivious_star_kwargs mapping explicit :
  oblivious (star_kwargs mapping explicit).
Proof. unfold star_kwargs. oblivious_steps. Qed.

Lemma oblivious_generate req : oblivious (Main.generate req).
Proof.
  unfold Main.generate.
  repeat first
    [ apply oblivious_bind; [|intros ?]
    | apply oblivious_ret | apply oblivious_log
    | apply oblivious_get_global | apply oblivious_getattr
    | apply oblivious_call | apply oblivious_getitem
    | apply oblivious_star_kwargs ].
Qed.

Lemma oblivious_run input : oblivious (Handler.run input).
Proof.
  unfold Handler.run.
  repeat first
    [ apply oblivious_bind; [|intros ?]
    | apply oblivious_ret | apply oblivious_log
    | apply oblivious_get_global | apply oblivious_getattr
    | apply oblivious_call ].
Qed.

Lemma oblivious_endpoint {A} (validate : pyval -> list verror + A) f body :
  (forall r, oblivious (f r)) ->
  forall w1 w2,
    same_store w1 w2 ->
    (endpoint validate f body w1).1 = (endpoint validate f body w2).1
    /\ same_store (endpoint validate f body w1).2
         (endpoint validate f body w2).2.
Proof.
  intros Hf w1 w2 Hs. unfold endpoint.
  destruct body as [v|]; [|done].
  destruct (validate v) as [es|r]; [done|].
  destruct (Hf r w1 w2 Hs) as [Hr Hs'].
  destruct (f r w1) as [r1 w1'], (f r w2) as [r2 w2']. simpl in *. subst r2.
  destruct r1 as [v'|e]; [|done]. by destruct (jsonable v').
Qed.

Lemma oblivious_serve a r w1 w2 :
  same_store w1 w2 ->
  (serve a r w1).1 = (serve a r w2).1
  /\ same_store (serve a r w1).2 (serve a r w2).2.
Proof.
  intros Hs. destruct a, r as [path body]; simpl.
  - unfold Main.app. destruct (str_eq path "/generate"); [|done].
    apply oblivious_endpoint; [apply oblivious_generate | done].
  - unfold Handler.app. destruct (str_eq path "/run"); [|done].
    apply oblivious_endpoint; [apply oblivious_run | done].
Qed.

(** X13.  With inference that is read-only and models in evaluation
    mode, the answer to a request does not depend on the requests served
    before it: it is the answer the request would get first. *)
Theorem answer_independent_of_history a rs r w :
  read_only_inference ->
  eval_mode w ->
  (serve a r (serve_all a rs w).2).1 = (serve a r w).1.
Proof.
  intros Hro Hw. apply oblivious_serve. split.
  - apply (stable_serve_all same_globals _ (fun e _ => same_globals_log e)
             same_globals_call).
  - by apply (stable_serve_all same_heap _ (fun e _ => same_heap_log e)
                (same_heap_call_ro Hro)).
Qed.

(** X14.  A body whose [prompt] is a string validates whenever
    [max_tokens] is absent or an integer and [temperature] is absent or
    a float: the prompt may be empty, the integer zero or negative, and
    the body may hold any other key.  The request it validates to holds
    the values supplied, and 128 and 0.7 for those absent. *)
Theorem well_typed_body_validates d P :
  d !! "prompt" = Some (VStr P) ->
  (d !! "max_tokens" = None \/ exists n, d !! "max_tokens" = Some (VInt n)) ->
  (d !! "temperature" = None
   \/ exists f, d !! "temperature" = Some (VFloat f)) ->
  Main.GenRequest_validate (VDict d)
  = inr {| Main.prompt := P;
           Main.max_tokens :=
             match d !! "max_tokens" with
             | Some (VInt n) => n
             | _ => 128
             end;
           Main.temperature :=
             match d !! "temperature" with
             | Some (VFloat f) => f
             | _ => 0.7%float
             end |}.
Proof.
  intros HP Hn Hf.
  unfold Main.GenRequest_validate, field_str, field_int, field_float.
  rewrite HP.
  destruct Hn as [Hn|[n Hn]], Hf as [Hf|[f Hf]]; by rewrite Hn, Hf.
Qed.



(** X16.  With inference that is read-only, a process of either module
    started on a heap whose models are in evaluation mode serves every
    request on the heap its top level left: the objects [load_model]
    made are never written to, and the model stays in evaluation
    mode. *)
Theorem loaded_objects_stay_as_loaded a w0 w1 rs :
  read_only_inference ->
  eval_mode w0 ->
  module_init a w0 = (Ok tt, w1) ->
  heap (serve_all a rs w1).2 = heap w1
  /\ globals (serve_all a rs w1).2 = globals w1
  /\ eval_mode (serve_all a rs w1).2.
Proof.
  intros Hro Hw0 Hinit.
  pose proof (eval_mode_throughout a w0 w1 [] Hro Hw0 Hinit) as Hw1.
  simpl in Hw1. split; [|split].
  - by apply (stable_serve_all same_heap _ (fun e _ => same_heap_log e)
                (same_heap_call_ro Hro)).
  - apply (stable_serve_all same_globals _ (fun e _ => same_globals_log e)
             same_globals_call).
  - exact (eval_mode_throughout a w0 w1 rs Hro Hw0 Hinit).
Qed.
End History.

(** * The added properties run on the stub and on the failing libraries *)

Section OnTheLibraries.
Import Stub.

Lemma stub_fresh_eval_mode : eval_mode fresh.
Proof. intros a m. simpl. by rewrite lookup_nil. Qed.

Lemma faulty_started_serving f :
  serving (Faulty.started f) 1%nat (ModelState 0%nat false) 0%nat tt.
Proof. by split. Qed.

(** On a library whose tokenizer cannot be reached. *)
Lemma load_model_stops_at_tokenizer_failure_witness :
  let w := Faulty.fresh Faulty.tokenizer_unreachable in
  (ModelLoader.load_model w).1
  = Raise (OSError "cannot reach the model repository")
  /\ globals (ModelLoader.load_model w).2 = globals w
  /\ heap (ModelLoader.load_model w).2 = heap w
  /\ trace (ModelLoader.load_model w).2 = trace w ++
       [EnterFunction "load_model";
        LibCall "AutoTokenizer.from_pretrained" None
          [VStr ModelLoader.MODEL_NAME] ∅].
Proof.
  apply (load_model_stops_at_tokenizer_failure
           (Faulty.fresh Faulty.tokenizer_unreachable)).
  reflexivity.
Defined.

(** On a library whose weights cannot be fetched. *)
Lemma load_model_stops_at_model_failure_witness :
  let w := Faulty.fresh Faulty.model_unreachable in
  (ModelLoader.load_model w).1 = Raise (OSError "cannot fetch the weights")
  /\ globals (ModelLoader.load_model w).2 = globals w
  /\ heap (ModelLoader.load_model w).2
     = heap w ++ [@OTokenizer (Faulty.library Faulty.model_unreachable) tt]
  /\ trace (ModelLoader.load_model w).2 = trace w ++
       [EnterFunction "load_model";
        LibCall "AutoTokenizer.from_pretrained" None
          [VStr ModelLoader.MODEL_NAME] ∅;
        LibCall "AutoModelForCausalLM.from_pretrained" None
          [VStr ModelLoader.MODEL_NAME] model_kwargs].
Proof.
  apply (load_model_stops_at_model_failure
           (Faulty.fresh Faulty.model_unreachable)); reflexivity.
Defined.

(** A process of [main.py] on a library whose tokenizer cannot be
    reached, with one request waiting. *)
Lemma failed_load_ends_the_process_witness :
  let w0 := Faulty.fresh Faulty.tokenizer_unreachable in
  let rs := [Post "/generate" (Some (VDict hi))] in
  (module_init main_py w0).1
  = Raise (OSError "cannot reach the model repository")
  /\ globals (module_init main_py w0).2 = globals w0
  /\ process main_py rs w0 = (None, (ModelLoader.load_model w0).2).
Proof.
  apply (failed_load_ends_the_process main_py
           [Post "/generate" (Some (VDict hi))]
           (Faulty.fresh Faulty.tokenizer_unreachable)).
  reflexivity.
Defined.

(** On the stub, two loads from the empty world. *)
Lemma load_model_loads_again_witness :
  (load_twice fresh).1
  = Ok (VTuple [VRef 1%nat; VRef 0%nat], VTuple [VRef 3%nat; VRef 2%nat])
  /\ heap (load_twice fresh).2
     = [OTokenizer tt; OModel (ModelState 0%nat false);
        OTokenizer tt; OModel (ModelState 0%nat false)]
  /\ length (filter is_load_model (trace (load_twice fresh).2)) = 2%nat.
Proof.
  apply (load_model_loads_again fresh tt (ModelState 0%nat true));
    reflexivity.
Defined.

(** On the stub, the top level of [main.py] from the empty world. *)
Lemma main_binds_model_and_tokenizer_witness :
  exists am m atok t,
    serving (module_init main_py fresh).2 am m atok t
    /\ training m = false
    /\ heap fresh !! am = None
    /\ heap fresh !! atok = None
    /\ forall name, name <> "model" -> name <> "tokenizer" ->
         globals (module_init main_py fresh).2 !! name
         = globals fresh !! name.
Proof.
  apply (main_binds_model_and_tokenizer fresh). reflexivity.
Defined.

(** On the stub, the first request of a [main.py] process. *)
Lemma valid_request_reaches_tokenizer_witness :
  let w := (serve_all main_py [] (module_init main_py fresh).2).2 in
  exists atok t evs,
    heap w !! atok = Some (OTokenizer t)
    /\ trace (serve main_py (Post "/generate" (Some (VDict hi))) w).2
       = trace w ++
           [EnterFunction "generate";
            LibCall "__call__" (Some atok) [VStr "hi"] tokenizer_kwargs]
           ++ evs.
Proof.
  apply (valid_request_reaches_tokenizer fresh _ [] hi
           {| Main.prompt := "hi"; Main.max_tokens := 128;
              Main.temperature := 0.7 |}); reflexivity.
Defined.

(** On the stub, a request for three new tokens. *)
Lemma generate_makes_three_calls_witness :
  let req := {| Main.prompt := "hi"; Main.max_tokens := 3;
                Main.temperature := 0.7 |} in
  let inputs : gmap string pyval :=
    <["input_ids" := VList [VList (encode "hi")]]>
      {[ "attention_mask" :=
           VList [VList ((fun _ => VInt 1) <$> encode "hi")] ]} in
  let seq := VList (encode "hi" ++ [VInt 33; VInt 33; VInt 33]) in
  (Main.generate req (started 0)).1
  = Ok (VDict {[ "completion" := VStr "hi!!!" ]})
  /\ trace (Main.generate req (started 0)).2
     = trace (started 0) ++
         [EnterFunction "generate";
          LibCall "__call__" (Some 0%nat) [VStr "hi"]
            {[ "return_tensors" := VStr "pt" ]};
          LibCall "generate" (Some 1%nat) []
            (<["max_new_tokens" := VInt 3]>
               (<["temperature" := VFloat 0.7]> inputs));
          LibCall "decode" (Some 0%nat) [seq]
            {[ "skip_special_tokens" := VBool true ]}]
  /\ globals (Main.generate req (started 0)).2 = globals (started 0)
  /\ heap (Main.generate req (started 0)).2
     = <[0%nat := OTokenizer tt]>
         (<[1%nat := OModel (ModelState 0%nat false)]>
            (<[0%nat := OTokenizer tt]> (heap (started 0)))).
Proof.
  apply (generate_makes_three_calls (started 0) 1%nat
           (ModelState 0%nat false) 0%nat tt
           {| Main.prompt := "hi"; Main.max_tokens := 3;
              Main.temperature := 0.7 |}
           (<["input_ids" := VList [VList (encode "hi")]]>
              {[ "attention_mask" :=
                   VList [VList ((fun _ => VInt 1) <$> encode "hi")] ]})
           tt (VList (encode "hi" ++ [VInt 33; VInt 33; VInt 33])) []
           (ModelState 0%nat false) (VStr "hi!!!") tt
           (stub_started_serving 0));
    vm_compute; reflexivity.
Defined.

(** On the stub, the encoding of a prompt. *)
Lemma generate_forwards_encoding_witness :
  let req := {| Main.prompt := "hi"; Main.max_tokens := 3;
                Main.temperature := 0.7 |} in
  let inputs : gmap string pyval :=
    <["input_ids" := VList [VList (encode "hi")]]>
      {[ "attention_mask" :=
           VList [VList ((fun _ => VInt 1) <$> encode "hi")] ]} in
  exists kwargs evs,
    trace (Main.generate req (started 0)).2
    = trace (started 0) ++
        [EnterFunction "generate";
         LibCall "__call__" (Some 0%nat) [VStr "hi"] tokenizer_kwargs;
         LibCall "generate" (Some 1%nat) [] kwargs] ++ evs
    /\ (forall k v, inputs !! k = Some v -> kwargs !! k = Some v)
    /\ dom kwargs = {[ "max_new_tokens"; "temperature" ]} ∪ dom inputs.
Proof.
  apply (generate_forwards_encoding (started 0) 1%nat
           (ModelState 0%nat false) 0%nat tt
           {| Main.prompt := "hi"; Main.max_tokens := 3;
              Main.temperature := 0.7 |}
           (<["input_ids" := VList [VList (encode "hi")]]>
              {[ "attention_mask" :=
                   VList [VList ((fun _ => VInt 1) <$> encode "hi")] ]})
           tt (stub_started_serving 0)); reflexivity.
Defined.

(** On a library whose tokenizer returns a [temperature]. *)
Lemma generate_refuses_duplicate_keyword_witness :
  let w := Faulty.started Faulty.duplicate_keyword in
  (Main.generate {| Main.prompt := "hi"; Main.max_tokens := 128;
                    Main.temperature := 0.7 |} w).1
  = Raise (TypeError "got multiple values for keyword argument")
  /\ (Main.app (Post "/generate" (Some (VDict hi))) w).1
     = Response 500 (VStr "Internal Server Error")
  /\ trace (Main.app (Post "/generate" (Some (VDict hi))) w).2
     = trace w ++
         [EnterFunction "generate";
          LibCall "__call__" (Some 0%nat) [VStr "hi"] tokenizer_kwargs].
Proof.
  eapply (generate_refuses_duplicate_keyword
            (Faulty.started Faulty.duplicate_keyword) 1%nat _ 0%nat tt hi
            {| Main.prompt := "hi"; Main.max_tokens := 128;
               Main.temperature := 0.7 |}).
  - apply faulty_started_serving.
  - vm_compute. reflexivity.
  - reflexivity.
  - right. eexists. vm_compute. reflexivity.
Defined.

(** On a library whose model returns no sequence. *)
Lemma generate_empty_batch_is_index_error_witness :
  let w := Faulty.started Faulty.empty_batch in
  let req := {| Main.prompt := "hi"; Main.max_tokens := 128;
                Main.temperature := 0.7 |} in
  let inputs : gmap string pyval :=
    <["input_ids" := VList [VList (encode "hi")]]>
      {[ "attention_mask" :=
           VList [VList ((fun _ => VInt 1) <$> encode "hi")] ]} in
  (Main.generate req w).1 = Raise (IndexError "index out of range")
  /\ (Main.app (Post "/generate" (Some (VDict hi))) w).1
     = Response 500 (VStr "Internal Server Error")
  /\ trace (Main.app (Post "/generate" (Some (VDict hi))) w).2
     = trace w ++
         [EnterFunction "generate";
          LibCall "__call__" (Some 0%nat) [VStr "hi"] tokenizer_kwargs;
          LibCall "generate" (Some 1%nat) [] (generate_kwargs inputs req)].
Proof.
  eapply (generate_empty_batch_is_index_error
            (Faulty.started Faulty.empty_batch) 1%nat _ 0%nat tt hi).
  - apply faulty_started_serving.
  - vm_compute. reflexivity.
  - reflexivity.
  - reflexivity.
  - reflexivity.
  - reflexivity.
Defined.

(** On a library whose tokenizer refuses its input. *)
Lemma tokenizer_failure_skips_the_model_witness :
  let w := Faulty.started Faulty.tokenizer_refuses in
  (Main.generate {| Main.prompt := "hi"; Main.max_tokens := 128;
                    Main.temperature := 0.7 |} w).1
  = Raise (ValueError "text input")
  /\ (Main.app (Post "/generate" (Some (VDict hi))) w).1
     = Response 500 (VStr "Internal Server Error")
  /\ trace (Main.app (Post "/generate" (Some (VDict hi))) w).2
     = trace w ++
         [EnterFunction "generate";
          LibCall "__call__" (Some 0%nat) [VStr "hi"] tokenizer_kwargs].
Proof.
  eapply (tokenizer_failure_skips_the_model
            (Faulty.started Faulty.tokenizer_refuses) 1%nat _ 0%nat tt hi
            {| Main.prompt := "hi"; Main.max_tokens := 128;
               Main.temperature := 0.7 |}).
  - apply faulty_started_serving.
  - vm_compute. reflexivity.
  - reflexivity.
Defined.

(** On a library whose model runs out of memory. *)
Lemma model_failure_skips_decoding_witness :
  let w := Faulty.started Faulty.out_of_memory in
  let req := {| Main.prompt := "hi"; Main.max_tokens := 128;
                Main.temperature := 0.7 |} in
  let inputs : gmap string pyval :=
    <["input_ids" := VList [VList (encode "hi")]]>
      {[ "attention_mask" :=
           VList [VList ((fun _ => VInt 1) <$> encode "hi")] ]} in
  (Main.generate req w).1 = Raise (RuntimeError "CUDA out of memory")
  /\ (Main.app (Post "/generate" (Some (VDict hi))) w).1
     = Response 500 (VStr "Internal Server Error")
  /\ trace (Main.app (Post "/generate" (Some (VDict hi))) w).2
     = trace w ++
         [EnterFunction "generate";
          LibCall "__call__" (Some 0%nat) [VStr "hi"] tokenizer_kwargs;
          LibCall "generate" (Some 1%nat) [] (generate_kwargs inputs req)].
Proof.
  eapply (model_failure_skips_decoding
            (Faulty.started Faulty.out_of_memory) 1%nat _ 0%nat tt hi).
  - apply faulty_started_serving.
  - vm_compute. reflexivity.
  - reflexivity.
  - reflexivity.
  - reflexivity.
  - reflexivity.
Defined.

(** On the stub, the same request first and after another. *)
Lemma answer_independent_of_history_witness :
  (serve main_py (Post "/generate" (Some (VDict hi0)))
     (serve_all main_py [Post "/generate" (Some (VDict hi3))]
        (started 0)).2).1
  = (serve main_py (Post "/generate" (Some (VDict hi0))) (started 0)).1.
Proof.
  apply (answer_independent_of_history main_py
           [Post "/generate" (Some (VDict hi3))]
           (Post "/generate" (Some (VDict hi0))) (started 0)
           stub_read_only (stub_started_eval_mode 0)).
Defined.

(** An empty prompt, a negative [max_tokens] and a key the class does
    not declare. *)
Lemma well_typed_body_validates_witness :
  Main.GenRequest_validate
    (VDict (<["max_tokens" := VInt (-5)]>
              (<["stream" := VBool true]> {[ "prompt" := VStr "" ]})))
  = inr {| Main.prompt := ""; Main.max_tokens := -5;
           Main.temperature := 0.7 |}.
Proof.
  pose proof (well_typed_body_validates
                (<["max_tokens" := VInt (-5)]>
                   (<["stream" := VBool true]> {[ "prompt" := VStr "" ]}))
                "") as Hv.
  vm_compute in Hv. vm_compute. apply Hv.
  - reflexivity.
  - right. exists (-5). reflexivity.
  - left. reflexivity.
Defined.


(** On the stub, a [main.py] process and two requests. *)
Lemma loaded_objects_stay_as_loaded_witness :
  let w1 := (module_init main_py fresh).2 in
  let rs := [Post "/generate" (Some (VDict hi3));
             Post "/generate" (Some (VDict hi0))] in
  heap (serve_all main_py rs w1).2 = heap w1
  /\ globals (serve_all main_py rs w1).2 = globals w1
  /\ eval_mode (serve_all main_py rs w1).2.
Proof.
  apply (loaded_objects_stay_as_loaded main_py fresh _ _
           stub_read_only stub_fresh_eval_mode).
  reflexivity.
Defined.
End OnTheLibraries.
